(** * FaceAuth-Pro: a shallow embedding of [app.py]

    The Flask application [app.py] is a request handler around a flat file
    store ([students/]), a cookie session and two calls into an external
    face-recognition library.  This development embeds the handlers as
    functions of an explicit world state (file system, session, flash queue,
    call trace) in a small state-and-exception monad, and settles the
    properties claimed for them.

    Modelling conventions.
    - Python [str] values are [string]s whose characters are the code points
      0..255 (Latin-1); [strip] and [lower] behave on that range as CPython's
      do.  Bytes objects are [string]s as well.
    - Floating-point numbers (the distance returned by the verifier) are
      rationals [Q]; time stamps are integers [Z] (seconds).
    - Exceptions are the subclasses of [Exception]; that is what every
      [except Exception] clause of the source catches.
    - Paths follow POSIX [os.path.join].  The store is flat: [students/]
      has no subdirectories, so a file cannot be created below it under a
      name that contains a slash. *)

From Stdlib Require Import ZArith QArith Qminmax String Ascii List Bool Lia
  Lqa.
From stdpp Require Import gmap strings list fin_maps.

Local Open Scope string_scope.

(** ** Python string primitives used by the source *)

Module PyStr.

(** [str.isspace] on a single code point below 256: the characters that
    [str.strip()] removes. *)
Definition is_space (c : ascii) : bool :=
  let n := N_of_ascii c in
  ((9 <=? n) && (n <=? 13) || (28 <=? n) && (n <=? 32)
   || (n =? 133) || (n =? 160))%N.

(** [str.lower] on a single code point below 256: A-Z, and the Latin-1
    capitals 0xC0-0xDE except the multiplication sign 0xD7. *)
Definition lower_char (c : ascii) : ascii :=
  let n := N_of_ascii c in
  if ((65 <=? n) && (n <=? 90)
      || (192 <=? n) && (n <=? 222) && negb (n =? 215))%N
  then ascii_of_N (n + 32) else c.

Fixpoint lower (s : string) : string :=
  match s with
  | EmptyString => EmptyString
  | String c s' => String (lower_char c) (lower s')
  end.

Fixpoint lstrip (s : string) : string :=
  match s with
  | EmptyString => EmptyString
  | String c s' => if is_space c then lstrip s' else s
  end.

Fixpoint rstrip (s : string) : string :=
  match s with
  | EmptyString => EmptyString
  | String c s' =>
      match rstrip s' with
      | EmptyString => if is_space c then EmptyString else String c EmptyString
      | r => String c r
      end
  end.

(** [s.strip()] *)
Definition strip (s : string) : string := lstrip (rstrip s).

(** [s.replace(old, new)] for a one-character [old]. *)
Fixpoint replace (old : ascii) (new : string) (s : string) : string :=
  match s with
  | EmptyString => EmptyString
  | String c s' =>
      if Ascii.eqb c old then new ++ replace old new s'
      else String c (replace old new s')
  end.

(** [s.startswith(p)] *)
Definition startswith (p s : string) : bool := String.prefix p s.

(** [s.split(sep, 1)] for a one-character [sep]: one piece when [sep]
    does not occur, otherwise the text before and after its first
    occurrence. *)
Fixpoint split1 (sep : ascii) (s : string) : list string :=
  match s with
  | EmptyString => [EmptyString]
  | String c s' =>
      if Ascii.eqb c sep then [EmptyString; s']
      else match split1 sep s' with
           | [a] => [String c a]
           | a :: rest => String c a :: rest
           | [] => []
           end
  end.

(** [s.endswith(c)] for a one-character suffix. *)
Fixpoint endswith_char (c : ascii) (s : string) : bool :=
  match s with
  | EmptyString => false
  | String d EmptyString => Ascii.eqb d c
  | String _ s' => endswith_char c s'
  end.

(** Truth value of a string: [not s] is [is_empty s]. *)
Definition is_empty (s : string) : bool :=
  match s with EmptyString => true | _ => false end.

Definition hex_digit (n : N) : ascii :=
  if (n <? 10)%N then ascii_of_N (48 + n) else ascii_of_N (87 + n).

(** [bytes.hex()]: two lowercase hexadecimal digits per byte. *)
Fixpoint hex (b : string) : string :=
  match b with
  | EmptyString => EmptyString
  | String c b' =>
      let n := N_of_ascii c in
      String (hex_digit (n / 16)) (String (hex_digit (n mod 16)) (hex b'))
  end.

End PyStr.

(** ** Paths and names (lines 24-45 of [app.py]) *)

Definition STUDENTS_DIR : string := "students".
Definition MODEL_NAME : string := "Facenet512".
Definition DETECTOR : string := "opencv".
Definition MAX_FILE_AGE_DAYS : Z := 30.

(** [os.path.join(a, b)] on POSIX: an absolute second component discards
    the first one; otherwise the two are joined by exactly one slash. *)
Definition path_join (a b : string) : string :=
  if PyStr.startswith "/" b then b
  else if PyStr.is_empty a || PyStr.endswith_char "/" a
       then a ++ b
       else a ++ "/" ++ b.

(** [sanitize_email]: create a safe filename from an email. *)
Definition sanitize_email (email : string) : string :=
  PyStr.replace "." "_"
    (PyStr.replace "@" "_at_" (PyStr.lower (PyStr.strip email))).

(** [registered_path] as computed in [submit] and in [check_email]. *)
Definition registered_path (email : string) : string :=
  path_join STUDENTS_DIR (sanitize_email email ++ ".jpg").

(** [temp_path] as computed in [submit]; [rnd] is [os.urandom(4)]. *)
Definition temp_path (email rnd : string) : string :=
  path_join STUDENTS_DIR
    ("temp_" ++ sanitize_email email ++ "_" ++ PyStr.hex rnd ++ ".jpg").

(** ** Values, exceptions and the world state *)

(** Exceptions: subclasses of [Exception], with their message. *)
Inductive exn : Type :=
| ValueError (msg : string)
| OSError (msg : string)
| LibraryError (cls msg : string).

Inductive result (A : Type) : Type :=
| Ok (a : A)
| Raise (e : exn).
Arguments Ok {A} a.
Arguments Raise {A} e.

(** The Python values that are stored in the session or handed to a
    template. *)
Inductive pyval : Type :=
| PNone
| PBool (b : bool)
| PStr (s : string)
| PInt (n : Z).

(** [bool(v)] *)
Definition truthy (v : pyval) : bool :=
  match v with
  | PNone => false
  | PBool b => b
  | PStr s => negb (PyStr.is_empty s)
  | PInt n => negb (n =? 0)%Z
  end.

(** A regular file: its bytes and its modification time. *)
Record file : Type := File { content : string; mtime : Z }.

(** The dictionary returned by [DeepFace.verify], read through
    [result.get("verified")] and [result.get('distance', 1)]. *)
Record verify_result : Type :=
  VerifyResult { vr_verified : option bool; vr_distance : option Q }.

Inductive category : Type := CatError | CatInfo | CatSuccess.

(** The texts that are flashed or logged; an f-string is a constructor
    that carries the interpolated values ([MsgNotRecognized] is rendered
    with the format [.1f]). *)
Inductive message : Type :=
| MsgMissing
| MsgDecodeError (e : exn)
| MsgNoFace
| MsgAlreadyRegistered
| MsgRegistered
| MsgRegisterFirst
| MsgWelcomeBack (email : string)
| MsgNotRecognized (similarity : Q)
| MsgAuthError (e : exn)
| MsgLoginFirst
| MsgLoggedOut
| MsgFaceDetectionError (e : exn)
| MsgRemovedOldTemp (filename : string)
| MsgCleanupError (e : exn).

Inductive loglevel : Type := LvlInfo | LvlError.

Inductive endpoint : Type := EpHome | EpDashboard.

Inductive response : Type :=
| Redirect (ep : endpoint)
| Render (template : string) (context : list (string * pyval))
| Json (body : list (string * pyval)) (status : Z).

(** Calls that leave the handler: file-system calls, library calls and
    session writes, in the order in which they are made. *)
Inductive event : Type :=
| EvOpenWb (path : string)
| EvB64Decode (encoded : string)
| EvWrite (path : string)
| EvExists (path : string)
| EvReplace (src dst : string)
| EvRemove (path : string)
| EvListdir (dir : string)
| EvGetmtime (path : string)
| EvExtractFaces (img_path : string)
| EvVerify (img1_path img2_path : string)
| EvSessionSet (key : string) (v : pyval)
| EvSessionClear.

(** What a request does not control.  The library functions are oracles;
    they read the file system and do not change it.  The operating system
    may refuse to create a file and to delete one (permissions, a file in
    use, ...): these are the two failures that [submit] handles on their
    own, at lines 99-101 and 154-157. *)
Record Env : Type := {
  b64decode : string -> result string;
  extract_faces : gmap string file -> string -> result nat;
  verify : gmap string file -> string -> string -> result verify_result;
  urandom4 : string;
  now : Z;
  open_refused : string -> bool;
  remove_refused : string -> bool
}.

(** The state a handler runs in.  [session] is the dictionary that the
    handlers read and write; Flask keeps [session.permanent] in it under
    the key [_permanent].  The queue of flashed messages, which Flask
    keeps in the session under the key [_flashes], is a field of its own:
    [flash] appends to it and [session.clear()] empties it together with
    the rest of the session. *)
Record World : Type := {
  fs : gmap string file;
  session : gmap string pyval;
  flashes : list (message * category);
  logs : list (loglevel * message);
  trace : list event
}.

Definition set_fs (f : gmap string file → gmap string file) (w : World) : World :=
  {| fs := f (fs w); session := session w; flashes := flashes w;
     logs := logs w; trace := trace w |}.

Definition set_session (f : gmap string pyval → gmap string pyval) (w : World) : World :=
  {| fs := fs w; session := f (session w); flashes := flashes w;
     logs := logs w; trace := trace w |}.

Definition add_flash (m : message) (c : category) (w : World) : World :=
  {| fs := fs w; session := session w; flashes := flashes w ++ [(m, c)];
     logs := logs w; trace := trace w |}.

Definition add_log (l : loglevel) (m : message) (w : World) : World :=
  {| fs := fs w; session := session w; flashes := flashes w;
     logs := logs w ++ [(l, m)]; trace := trace w |}.

Definition add_event (e : event) (w : World) : World :=
  {| fs := fs w; session := session w; flashes := flashes w;
     logs := logs w; trace := trace w ++ [e] |}.

(** The session without any key, the pending flashes included. *)
Definition clear_session (w : World) : World :=
  {| fs := fs w; session := ∅; flashes := [];
     logs := logs w; trace := trace w |}.

(** ** The monad of handlers: state and exceptions *)

Definition M (A : Type) : Type := World → result A * World.

Definition ret {A} (a : A) : M A := λ w, (Ok a, w).

Definition raise {A} (e : exn) : M A := λ w, (Raise e, w).

Definition bind {A B} (m : M A) (k : A → M B) : M B :=
  λ w, match m w with
       | (Ok a, w') => k a w'
       | (Raise e, w') => (Raise e, w')
       end.

(** [try: m  except Exception as e: h e] *)
Definition try_catch {A} (m : M A) (h : exn → M A) : M A :=
  λ w, match m w with
       | (Ok a, w') => (Ok a, w')
       | (Raise e, w') => h e w'
       end.

(** [try: m  finally: c]: [c] runs on every way out of [m]; the outcome of
    [m] stands unless [c] itself raises. *)
Definition finally {A} (m : M A) (c : M unit) : M A :=
  λ w, match m w with
       | (r, w') =>
           match c w' with
           | (Ok _, w'') => (r, w'')
           | (Raise e, w'') => (Raise e, w'')
           end
       end.

Definition lift_result {A} (r : result A) : M A := λ w, (r, w).

Definition emit (e : event) : M unit := λ w, (Ok tt, add_event e w).

Declare Scope M_scope.
Delimit Scope M_scope with M.
Notation "x ← y ; z" := (bind y (λ x, z))
  (at level 20, y at level 100, z at level 200, only parsing) : M_scope.
Notation "y ;; z" := (bind y (λ _, z))
  (at level 100, z at level 200, only parsing, right associativity) : M_scope.
Local Open Scope M_scope.

(** [for x in l: body x] *)
Fixpoint for_each {A} (l : list A) (body : A → M unit) : M unit :=
  match l with
  | [] => ret tt
  | x :: l' => body x ;; for_each l' body
  end.

(** ** Flask and operating-system primitives *)

Definition flash (m : message) (c : category) : M unit :=
  λ w, (Ok tt, add_flash m c w).

Definition log (l : loglevel) (m : message) : M unit :=
  λ w, (Ok tt, add_log l m w).

(** [session[key] = v] *)
Definition session_set (key : string) (v : pyval) : M unit :=
  emit (EvSessionSet key v) ;;
  λ w, (Ok tt, set_session (insert key v) w).

(** [session.get(key)] *)
Definition session_get (key : string) : M pyval :=
  λ w, (Ok (default PNone (session w !! key)), w).

(** [session.clear()]: every key goes, and with [_flashes] the messages
    that were flashed and not yet shown. *)
Definition session_clear : M unit :=
  emit EvSessionClear ;;
  λ w, (Ok tt, clear_session w).

(** [strip_prefix p s] is [Some r] when [s = p ++ r]. *)
Fixpoint strip_prefix (p s : string) : option string :=
  match p, s with
  | EmptyString, _ => Some s
  | String a p', String b s' =>
      if Ascii.eqb a b then strip_prefix p' s' else None
  | String _ _, EmptyString => None
  end.

Fixpoint has_char (c : ascii) (s : string) : bool :=
  match s with
  | EmptyString => false
  | String d s' => Ascii.eqb d c || has_char c s'
  end.

(** The names of the files directly inside directory [d]. *)
Definition child_name (d path : string) : option string :=
  match strip_prefix (d ++ "/") path with
  | Some n => if PyStr.is_empty n || has_char "/" n then None else Some n
  | None => None
  end.

Definition listdir (m : gmap string file) (d : string) : list string :=
  omap (λ kv, child_name d kv.1) (map_to_list m).

(** The store is flat: the application creates the directory [students]
    when it starts and only ever creates files directly in it, so
    [students] has no subdirectory.  A path [students/<n>] with a further
    slash in [<n>] names a file in a directory that does not exist. *)
Definition nested_in_store (path : string) : bool :=
  match strip_prefix (STUDENTS_DIR ++ "/") path with
  | Some n => has_char "/" n
  | None => false
  end.

Section Handlers.

Variable env : Env.

Definition no_such_file {A} : M A :=
  raise (OSError "No such file or directory").

Definition permission_denied {A} : M A :=
  raise (OSError "Permission denied").

(** [os.path.exists(p)]: never raises. *)
Definition os_path_exists (p : string) : M bool :=
  emit (EvExists p) ;;
  λ w, (Ok (bool_decide (is_Some (fs w !! p))), w).

(** [open(p, "wb")]: creates the file, or truncates it. *)
Definition open_wb (p : string) : M unit :=
  emit (EvOpenWb p) ;;
  if nested_in_store p then no_such_file
  else if open_refused env p then permission_denied
  else λ w, (Ok tt, set_fs (insert p (File "" (now env))) w).

(** [f.write(data)] on the file opened at [p]. *)
Definition file_write (p data : string) : M unit :=
  emit (EvWrite p) ;;
  λ w, (Ok tt, set_fs (insert p (File data (now env))) w).

(** [os.replace(src, dst)]: an atomic rename that keeps the file's
    modification time.  It needs the source file and the directory of the
    destination. *)
Definition os_replace (src dst : string) : M unit :=
  emit (EvReplace src dst) ;;
  if nested_in_store dst then no_such_file
  else λ w, match fs w !! src with
            | Some f => (Ok tt, set_fs (λ m, <[dst := f]> (delete src m)) w)
            | None => no_such_file w
            end.

(** [os.remove(p)] *)
Definition os_remove (p : string) : M unit :=
  emit (EvRemove p) ;;
  if remove_refused env p then permission_denied
  else λ w, match fs w !! p with
            | Some _ => (Ok tt, set_fs (delete p) w)
            | None => no_such_file w
            end.

(** [os.listdir(d)] *)
Definition os_listdir (d : string) : M (list string) :=
  emit (EvListdir d) ;;
  λ w, (Ok (listdir (fs w) d), w).

(** [os.path.getmtime(p)] *)
Definition os_getmtime (p : string) : M Z :=
  emit (EvGetmtime p) ;;
  λ w, match fs w !! p with
       | Some f => (Ok (mtime f), w)
       | None => no_such_file w
       end.

(** [b64decode(encoded)] *)
Definition py_b64decode (encoded : string) : M string :=
  emit (EvB64Decode encoded) ;; lift_result (b64decode env encoded).

(** [len(DeepFace.extract_faces(img_path=p, detector_backend=DETECTOR,
    enforce_detection=True))] *)
Definition deepface_extract_faces (p : string) : M nat :=
  emit (EvExtractFaces p) ;;
  λ w, (extract_faces env (fs w) p, w).

(** [DeepFace.verify(img1_path=p1, img2_path=p2, model_name=MODEL_NAME,
    detector_backend=DETECTOR)] *)
Definition deepface_verify (p1 p2 : string) : M verify_result :=
  emit (EvVerify p1 p2) ;;
  λ w, (verify env (fs w) p1 p2, w).

(** ** The functions of [app.py] *)

(** [save_base64_image] (lines 33-40). *)
Definition save_base64_image (image_data_b64 path : string) : M unit :=
  encoded ← match PyStr.split1 "," image_data_b64 with
            | [header; encoded] => ret encoded
            | _ => raise (ValueError "Invalid image data format")
            end ;
  open_wb path ;;
  data ← py_b64decode encoded ;
  file_write path data.

(** [single_face_present] (lines 48-59). *)
Definition single_face_present (img_path : string) : M bool :=
  try_catch
    (faces ← deepface_extract_faces img_path ;
     ret (faces =? 1)%nat)
    (λ e, log LvlError (MsgFaceDetectionError e) ;; ret false).

(** The body of the loop of [cleanup_old_files] (lines 67-71). *)
Definition cleanup_file (filename : string) : M unit :=
  if PyStr.startswith "temp_" filename then
    let filepath := path_join STUDENTS_DIR filename in
    mt ← os_getmtime filepath ;
    if (mt <? now env - MAX_FILE_AGE_DAYS * 86400)%Z then
      os_remove filepath ;;
      log LvlInfo (MsgRemovedOldTemp filename)
    else ret tt
  else ret tt.

(** [cleanup_old_files] (lines 62-73). *)
Definition cleanup_old_files : M unit :=
  try_catch
    (names ← os_listdir STUDENTS_DIR ;
     for_each names cleanup_file)
    (λ e, log LvlError (MsgCleanupError e)).

(** [home] (lines 76-80). *)
Definition home : M response :=
  cleanup_old_files ;;
  ret (Render "index.html" []).

(** [max(0, (1 - distance) * 100)] *)
Definition similarity (distance : Q) : Q :=
  let x := ((1 - distance) * 100)%Q in
  if Qle_bool x 0 then 0%Q else x.

(** The [finally] block of [submit] (lines 151-157). *)
Definition cleanup_temp (temp : string) : M unit :=
  ex ← os_path_exists temp ;
  if ex then try_catch (os_remove temp) (λ _, ret tt) else ret tt.

(** The guarded part of [submit] (lines 103-150): the [try] block with its
    [except Exception] handler. *)
Definition submit_try (mode email registered temp : string) : M response :=
  try_catch
    (one ← single_face_present temp ;
     if negb one then
       flash MsgNoFace CatError ;;
       ret (Redirect EpHome)
     else if String.eqb mode "register" then
       ex ← os_path_exists registered ;
       if ex then
         flash MsgAlreadyRegistered CatInfo ;;
         ret (Redirect EpHome)
       else
         os_replace temp registered ;;
         flash MsgRegistered CatSuccess ;;
         session_set "_permanent" (PBool true) ;;
         session_set "email" (PStr email) ;;
         session_set "logged_in" (PBool true) ;;
         ret (Redirect EpDashboard)
     else
       ex ← os_path_exists registered ;
       if negb ex then
         flash MsgRegisterFirst CatError ;;
         ret (Redirect EpHome)
       else
         res ← deepface_verify temp registered ;
         if default false (vr_verified res) then
           flash (MsgWelcomeBack email) CatSuccess ;;
           session_set "_permanent" (PBool true) ;;
           session_set "email" (PStr email) ;;
           session_set "logged_in" (PBool true) ;;
           ret (Redirect EpDashboard)
         else
           let distance := default 1%Q (vr_distance res) in
           flash (MsgNotRecognized (similarity distance)) CatError ;;
           ret (Redirect EpHome))
    (λ e, log LvlError (MsgAuthError e) ;;
          flash (MsgAuthError e) CatError ;;
          ret (Redirect EpHome)).

(** [(request.form.get("email") or "").strip().lower()] *)
Definition form_email (form : gmap string string) : string :=
  PyStr.lower (PyStr.strip (default "" (form !! "email"))).

(** [mode not in ("login", "register")] for [mode = request.form.get("mode")] *)
Definition bad_mode (mode : option string) : bool :=
  match mode with
  | Some m => negb (String.eqb m "login" || String.eqb m "register")
  | None => true
  end.

(** [submit] (lines 83-157). *)
Definition submit (form : gmap string string) : M response :=
  let mode := form !! "mode" in
  let email := form_email form in
  let image_data := default "" (form !! "image_data") in
  if PyStr.is_empty email || bad_mode mode || PyStr.is_empty image_data then
    flash MsgMissing CatError ;;
    ret (Redirect EpHome)
  else
    let registered := registered_path email in
    let temp := temp_path email (urandom4 env) in
    failed ← try_catch
               (save_base64_image image_data temp ;; ret None)
               (λ e, flash (MsgDecodeError e) CatError ;;
                     ret (Some (Redirect EpHome))) ;
    match failed with
    | Some resp => ret resp
    | None =>
        finally (submit_try (default "" mode) email registered temp)
                (cleanup_temp temp)
    end.

(** [dashboard] (lines 160-165). *)
Definition dashboard : M response :=
  logged_in ← session_get "logged_in" ;
  if negb (truthy logged_in) then
    flash MsgLoginFirst CatError ;;
    ret (Redirect EpHome)
  else
    email ← session_get "email" ;
    ret (Render "dashboard.html" [("email", email)]).

(** [logout] (lines 168-172). *)
Definition logout : M response :=
  session_clear ;;
  flash MsgLoggedOut CatInfo ;;
  ret (Redirect EpHome).

(** [check_email] (lines 175-185). *)
Definition check_email (form : gmap string string) : M response :=
  let email := form_email form in
  if PyStr.is_empty email then
    ret (Json [("error", PStr "Email required")] 400)
  else
    let registered := registered_path email in
    ex ← os_path_exists registered ;
    ret (Json [("registered", PBool ex)] 200).

End Handlers.

(** ** Vocabulary of the statements *)

(** The form field [image_data] as [submit] reads it. *)
Definition upload (form : gmap string string) : string :=
  default "" (form !! "image_data").

(** The guard of line 89: [submit] goes on exactly when it is [false]. *)
Definition missing_fields (form : gmap string string) : bool :=
  PyStr.is_empty (form_email form) || bad_mode (form !! "mode")
  || PyStr.is_empty (upload form).

(** The session after lines 116-118 (or 136-138) ran on session [s]. *)
Definition logged_in_session (email : string) (s : gmap string pyval) :
    gmap string pyval :=
  <["logged_in" := PBool true]>
    (<["email" := PStr email]> (<["_permanent" := PBool true]> s)).

(** The three session writes of a successful submission, in order. *)
Definition session_events (email : string) : list event :=
  [EvSessionSet "_permanent" (PBool true); EvSessionSet "email" (PStr email);
   EvSessionSet "logged_in" (PBool true)].

(** The messages of the outcomes that do not log in: missing fields,
    undecodable image, face-count failure, already registered, no stored
    reference, verification failure, exception. *)
Definition is_rejection (m : message) : bool :=
  match m with
  | MsgMissing | MsgDecodeError _ | MsgNoFace | MsgAlreadyRegistered
  | MsgRegisterFirst | MsgNotRecognized _ | MsgAuthError _ => true
  | _ => false
  end.

(** The position of a call in the sequence "decode, write, call the face
    API, update a file-system path, set the session flag"; the existence
    tests and the opening of the file have no position of their own. *)
Definition step_of (e : event) : option nat :=
  match e with
  | EvB64Decode _ => Some 1%nat
  | EvWrite _ => Some 2%nat
  | EvExtractFaces _ | EvVerify _ _ => Some 3%nat
  | EvReplace _ _ | EvRemove _ => Some 4%nat
  | EvSessionSet _ _ => Some 5%nat
  | _ => None
  end.

Fixpoint nondecreasing (l : list nat) : bool :=
  match l with
  | a :: (b :: _) as l' => (a <=? b)%nat && nondecreasing l'
  | _ => true
  end.

(** The calls of a request come in the order of that sequence. *)
Definition specified_order (tr : list event) : bool :=
  nondecreasing (omap step_of tr).

(** A call that sets a session key or writes the path [reg]. *)
Definition is_effect (reg : string) (e : event) : bool :=
  match e with
  | EvSessionSet _ _ => true
  | EvReplace _ dst => String.eqb dst reg
  | EvWrite p | EvOpenWb p => String.eqb p reg
  | _ => false
  end.

(** In [tr], every session write and every write of [reg] comes after the
    face detector was called on [temp]. *)
Definition api_first (temp reg : string) (tr : list event) : Prop :=
  ∀ pre e post, tr = (pre ++ e :: post)%list → is_effect reg e = true →
    In (EvExtractFaces temp) pre.

Fixpoint api_firstb (temp reg : string) (seen : bool) (tr : list event) : bool :=
  match tr with
  | [] => true
  | e :: tr' =>
      (negb (is_effect reg e) || seen)
      && api_firstb temp reg
           (seen || match e with
                    | EvExtractFaces p => String.eqb p temp
                    | _ => false
                    end) tr'
  end.

(** What [cleanup_old_files] looks for: a name that starts with [temp_]
    and a modification time more than [MAX_FILE_AGE_DAYS] days before
    [now_]. *)
Definition old_temp_file (now_ : Z) (name : string) (f : file) : Prop :=
  PyStr.startswith "temp_" name = true
  ∧ (mtime f < now_ - MAX_FILE_AGE_DAYS * 86400)%Z.

(** *** A concrete environment, used to run the handlers on examples *)

Definition demo_b64decode (s : string) : result string :=
  if String.eqb s "aGVsbG8=" then Ok "hello"
  else if String.eqb s "d29ybGQ=" then Ok "world"
  else Raise (LibraryError "binascii.Error" "Incorrect padding").

(** A detector that finds one face in the picture [hello] and none in any
    other file. *)
Definition demo_extract_faces (m : gmap string file) (p : string) : result nat :=
  match m !! p with
  | Some f =>
      if String.eqb (content f) "hello" then Ok 1%nat
      else Raise (ValueError "Face could not be detected")
  | None => Raise (ValueError "Confirm that the image exists")
  end.

(** A verifier that accepts identical pictures. *)
Definition demo_verify (m : gmap string file) (p1 p2 : string) :
    result verify_result :=
  match m !! p1, m !! p2 with
  | Some f1, Some f2 =>
      if String.eqb (content f1) (content f2)
      then Ok (VerifyResult (Some true) (Some 0%Q))
      else Ok (VerifyResult (Some false) (Some (3 # 4)%Q))
  | _, _ => Raise (ValueError "Confirm that the image exists")
  end.

Definition demo_env (t : Z) : Env :=
  {| b64decode := demo_b64decode;
     extract_faces := demo_extract_faces;
     verify := demo_verify;
     urandom4 := "abcd";
     now := t;
     open_refused := λ _, false;
     remove_refused := λ _, false |}.

(** The same environment with a verifier that is out of order. *)
Definition broken_verify_env (t : Z) : Env :=
  {| b64decode := demo_b64decode;
     extract_faces := demo_extract_faces;
     verify := λ _ _ _, Raise (LibraryError "RuntimeError" "model not loaded");
     urandom4 := "abcd";
     now := t;
     open_refused := λ _, false;
     remove_refused := λ _, false |}.

(** An environment whose detector finds two faces in every picture. *)
Definition crowd_env (t : Z) : Env :=
  {| b64decode := demo_b64decode;
     extract_faces := λ _ _, Ok 2%nat;
     verify := demo_verify;
     urandom4 := "abcd";
     now := t;
     open_refused := λ _, false;
     remove_refused := λ _, false |}.

(** An environment in which the operating system refuses to remove the
    file [locked]. *)
Definition locking_env (t : Z) (locked : string) : Env :=
  {| b64decode := demo_b64decode;
     extract_faces := demo_extract_faces;
     verify := demo_verify;
     urandom4 := "abcd";
     now := t;
     open_refused := λ _, false;
     remove_refused := String.eqb locked |}.

Definition form_of (mode email image : string) : gmap string string :=
  <["mode" := mode]> (<["email" := email]> (<["image_data" := image]> ∅)).

Definition image_hello : string := "data:image/jpeg;base64,aGVsbG8=".
Definition image_world : string := "data:image/jpeg;base64,d29ybGQ=".

Definition world_of (files : gmap string file) : World :=
  {| fs := files; session := ∅; flashes := []; logs := []; trace := [] |}.

(** The world after [email] enrolled the picture [hello] at time [t] in an
    empty store. *)
Definition enrolled (email : string) (t : Z) : World :=
  (submit (demo_env t) (form_of "register" email image_hello) (world_of ∅)).2.

(** The events that a request added to the trace. *)
Definition new_events (w w' : World) : list event :=
  drop (length (trace w)) (trace w').

(** The order of steps read literally: in every submission that ends on
    the dashboard, the calls come in the sequence "decode, write, face API,
    file-system update, session flag". *)
Definition order_as_specified : Prop :=
  ∀ env form w w',
    submit env form w = (Ok (Redirect EpDashboard), w') →
    specified_order (new_events w w') = true.

(** * Properties *)

(** ** Proof automation *)

(** Reduce the projections of an updated world, and nothing else: the
    maps keep their [insert] and [delete]. *)
Ltac wsimpl :=
  cbn [fs session flashes logs trace set_fs set_session add_flash add_log
       add_event clear_session fst snd] in *.

Ltac munfold :=
  unfold cleanup_temp, os_path_exists, os_remove, os_replace, os_getmtime,
    os_listdir, open_wb, file_write, no_such_file, permission_denied,
    py_b64decode,
    deepface_extract_faces, deepface_verify, session_set, session_get,
    session_clear, flash, log, emit, lift_result, try_catch, finally, bind,
    ret, raise in *.

(** One step of symbolic execution: case analysis on the innermost
    scrutinee of the goal. *)
Ltac mstep :=
  wsimpl;
  rewrite ?lookup_insert_eq;
  match goal with
  | |- context [bool_decide ?P] => destruct (bool_decide P) eqn:?
  | |- context [match ?x with _ => _ end] =>
      lazymatch x with
      | context [match _ with _ => _ end] => fail
      | _ => destruct x eqn:?
      end
  end.

Ltac breflect :=
  repeat match goal with
    | H : negb _ = true |- _ => apply negb_true_iff in H
    | H : negb _ = false |- _ => apply negb_false_iff in H
    | H : (_ =? _)%nat = true |- _ => apply Nat.eqb_eq in H; subst
    | H : (_ =? _)%string = true |- _ => apply String.eqb_eq in H
    | H : (_ =? _)%string = false |- _ => apply String.eqb_neq in H
    | H : bool_decide _ = true |- _ => apply bool_decide_eq_true in H
    | H : bool_decide _ = false |- _ => apply bool_decide_eq_false in H
    end.

(** ** Strings and paths *)

Lemma string_length_app (a b : string) :
  String.length (a ++ b) = (String.length a + String.length b)%nat.
Proof. induction a as [|c a IH]; simpl; [done | by rewrite IH]. Qed.

Lemma lower_is_empty (s : string) :
  PyStr.is_empty (PyStr.lower s) = PyStr.is_empty s.
Proof. by destruct s. Qed.

Lemma path_join_students (b : string) :
  path_join STUDENTS_DIR b
  = if PyStr.startswith "/" b then b else "students/" ++ b.
Proof. reflexivity. Qed.

Lemma startswith_slash_app (a b : string) :
  PyStr.is_empty a = false →
  PyStr.startswith "/" (a ++ b) = PyStr.startswith "/" a.
Proof. destruct a as [|c a]; [done|]. intros _. simpl. by destruct a, b. Qed.

Lemma temp_path_eq (email rnd : string) :
  temp_path email rnd
  = "students/temp_" ++ sanitize_email email ++ "_" ++ PyStr.hex rnd ++ ".jpg".
Proof. reflexivity. Qed.

(** Inside the store, the reference path is [students/<name>.jpg]. *)
Lemma registered_path_flat (email : string) :
  PyStr.startswith "/" (sanitize_email email) = false →
  registered_path email = "students/" ++ sanitize_email email ++ ".jpg".
Proof.
  intros H. unfold registered_path. rewrite path_join_students.
  destruct (sanitize_email email) as [|c s] eqn:E; [done|].
  rewrite startswith_slash_app by done. by rewrite H.
Qed.

(** The temporary path of a request is never its reference path. *)
Lemma temp_neq_registered (email rnd : string) :
  temp_path email rnd ≠ registered_path email.
Proof.
  intros H. apply (f_equal String.length) in H.
  rewrite temp_path_eq in H. unfold registered_path in H.
  rewrite path_join_students in H.
  destruct (PyStr.startswith "/" _);
    repeat (rewrite !string_length_app in H; simpl in H); lia.
Qed.

Lemma has_char_app (c : ascii) (a b : string) :
  has_char c (a ++ b) = has_char c a || has_char c b.
Proof.
  induction a as [|d a IH]; simpl; [done|]. by rewrite IH, orb_assoc.
Qed.

Lemma startswith_has_slash (s : string) :
  has_char "/" s = false → PyStr.startswith "/" s = false.
Proof.
  destruct s as [|c s]; [done|]. unfold PyStr.startswith.
  cbn [String.prefix has_char].
  intros [Hc _]%orb_false_iff. apply Ascii.eqb_neq in Hc.
  destruct (Ascii.ascii_dec "/" c) as [<-|]; [done|]. by destruct s.
Qed.

Lemma nested_in_store_child (n : string) :
  nested_in_store ("students/" ++ n) = has_char "/" n.
Proof. reflexivity. Qed.

(** A temporary path that can be opened comes from a sanitized name
    without a slash; the reference path is then a file of the store. *)
Lemma temp_not_nested (email rnd : string) :
  nested_in_store (temp_path email rnd) = false →
  has_char "/" (sanitize_email email) = false
  ∧ registered_path email = "students/" ++ sanitize_email email ++ ".jpg"
  ∧ nested_in_store (registered_path email) = false.
Proof.
  rewrite temp_path_eq.
  change ("students/temp_" ++ ?x) with ("students/" ++ ("temp_" ++ x)).
  rewrite nested_in_store_child, !has_char_app.
  intros [_ [Hname _]%orb_false_iff]%orb_false_iff.
  assert (Hreg : registered_path email
                 = "students/" ++ sanitize_email email ++ ".jpg")
    by by apply registered_path_flat, startswith_has_slash.
  split_and!; try done.
  rewrite Hreg, nested_in_store_child, has_char_app, Hname. reflexivity.
Qed.

Lemma similarity_max (d : Q) :
  (similarity d == Qmax 0 ((1 - d) * 100))%Q.
Proof.
  unfold similarity. cbv zeta.
  destruct (Qle_bool ((1 - d) * 100) 0) eqn:E.
  - apply Qle_bool_iff in E. symmetry. by apply Q.max_l.
  - symmetry. apply Q.max_r. apply Qnot_lt_le. intros Hlt.
    apply Qlt_le_weak, Qle_bool_iff in Hlt. congruence.
Qed.

Example sanitize_email_ex :
  sanitize_email "  Alice.Smith@Example.COM " = "alice_smith_at_example_com".
Proof. reflexivity. Qed.

Example registered_path_ex :
  registered_path "a@b.c" = "students/a_at_b_c.jpg".
Proof. reflexivity. Qed.

Example registered_path_absolute_ex :
  registered_path "/tmp/x" = "/tmp/x.jpg".
Proof. reflexivity. Qed.

Example temp_path_ex :
  temp_path "a@b.c" "abcd" = "students/temp_a_at_b_c_61626364.jpg".
Proof. reflexivity. Qed.

Example split1_ex :
  PyStr.split1 "," "data:image/jpeg;base64,aGVs,bG8="
  = ["data:image/jpeg;base64"; "aGVs,bG8="]
  ∧ PyStr.split1 "," "no comma" = ["no comma"].
Proof. by split. Qed.

Example similarity_ex :
  similarity (3 # 4) = (100 # 4)%Q ∧ similarity (5 # 4) = 0%Q.
Proof. by split. Qed.

Lemma logged_in_session_lookup (email : string) (s : gmap string pyval) :
  logged_in_session email s !! "logged_in" = Some (PBool true)
  ∧ logged_in_session email s !! "email" = Some (PStr email).
Proof.
  unfold logged_in_session. split.
  - apply lookup_insert_eq.
  - rewrite lookup_insert_ne by done. apply lookup_insert_eq.
Qed.

Lemma api_firstb_sound (temp reg : string) (tr : list event) (seen : bool) :
  api_firstb temp reg seen tr = true →
  ∀ pre e post, tr = (pre ++ e :: post)%list → is_effect reg e = true →
    seen = true ∨ In (EvExtractFaces temp) pre.
Proof.
  revert seen. induction tr as [|x tr IH]; intros seen Hb pre e post Heq Heff.
  - by destruct pre.
  - simpl in Hb. apply andb_true_iff in Hb as [Hx Hrest].
    destruct pre as [|y pre]; simpl in Heq; injection Heq as -> ->.
    + rewrite Heff in Hx. simpl in Hx. by left.
    + destruct (IH _ Hrest pre e post eq_refl Heff) as [Hs|Hin].
      * apply orb_true_iff in Hs as [Hs|Hs]; [by left|].
        right. left. destruct y; try discriminate.
        apply String.eqb_eq in Hs. by subst.
      * right. by right.
Qed.

Lemma api_firstb_api_first (temp reg : string) (tr : list event) :
  api_firstb temp reg false tr = true → api_first temp reg tr.
Proof.
  intros Hb pre e post Heq Heff.
  by destruct (api_firstb_sound _ _ _ _ Hb pre e post Heq Heff).
Qed.

(** ** The parts of [submit] *)

(** [save_base64_image] returns normally only when the data URL has a
    comma, the file can be opened and the payload decodes; the file then
    holds the decoded bytes. *)
Lemma save_base64_image_ok env img p w w1 :
  save_base64_image env img p w = (Ok tt, w1) →
  ∃ header enc data,
    PyStr.split1 "," img = [header; enc]
    ∧ nested_in_store p = false
    ∧ b64decode env enc = Ok data
    ∧ fs w1 = <[p := File data (now env)]> (fs w)
    ∧ session w1 = session w ∧ flashes w1 = flashes w ∧ logs w1 = logs w
    ∧ trace w1 = (trace w ++ [EvOpenWb p; EvB64Decode enc; EvWrite p])%list.
Proof.
  unfold save_base64_image. munfold. intros H.
  destruct (PyStr.split1 "," img) as [|header [|enc [|? ?]]]; wsimpl;
    try discriminate.
  destruct (nested_in_store p) eqn:Hnest; wsimpl; try discriminate.
  destruct (open_refused env p) eqn:Hopen; wsimpl; try discriminate.
  destruct (b64decode env enc) as [data|e] eqn:Hdec; wsimpl; try discriminate.
  injection H as <-. exists header, enc, data. wsimpl.
  rewrite insert_insert_eq, <- !app_assoc. by split_and!.
Qed.

(** When it raises, it has touched nothing but the temporary path, and
    has called neither the face library nor the session. *)
Lemma save_base64_image_raise env img p w e w1 :
  save_base64_image env img p w = (Raise e, w1) →
  session w1 = session w ∧ flashes w1 = flashes w ∧ logs w1 = logs w
  ∧ (∀ q, q ≠ p → fs w1 !! q = fs w !! q)
  ∧ ∃ tr, trace w1 = (trace w ++ tr)%list
          ∧ (tr = [] ∨ tr = [EvOpenWb p]
             ∨ ∃ enc, tr = [EvOpenWb p; EvB64Decode enc]).
Proof.
  unfold save_base64_image. munfold. intros H.
  destruct (PyStr.split1 "," img) as [|header [|enc [|? ?]]]; wsimpl.
  1,2,4: injection H as <- <-; split_and!; try done;
         exists []; rewrite app_nil_r; auto.
  destruct (nested_in_store p) eqn:Hnest; wsimpl.
  { injection H as <- <-. wsimpl. split_and!; try done. eauto. }
  destruct (open_refused env p) eqn:Hopen; wsimpl.
  { injection H as <- <-. wsimpl. split_and!; try done. eauto. }
  destruct (b64decode env enc) as [data|e'] eqn:Hdec; wsimpl; try discriminate.
  injection H as <- <-. wsimpl. split_and!; try done.
  - intros q Hq. by rewrite lookup_insert_ne.
  - exists [EvOpenWb p; EvB64Decode enc]. rewrite <- app_assoc. eauto.
Qed.

(** The [finally] block never raises; it leaves the temporary path
    absent unless the operating system refuses the removal. *)
Lemma cleanup_temp_spec env temp w :
  ∃ w', cleanup_temp env temp w = (Ok tt, w')
    ∧ session w' = session w ∧ flashes w' = flashes w ∧ logs w' = logs w
    ∧ (remove_refused env temp = false → fs w' !! temp = None)
    ∧ (∀ p, p ≠ temp → fs w' !! p = fs w !! p)
    ∧ (trace w' = (trace w ++ [EvExists temp])%list
       ∧ fs w !! temp = None ∧ fs w' = fs w
       ∨ trace w' = (trace w ++ [EvExists temp; EvRemove temp])%list
         ∧ is_Some (fs w !! temp)).
Proof.
  munfold. wsimpl.
  case_bool_decide as Hex.
  - destruct Hex as [f Hf]. wsimpl.
    destruct (remove_refused env temp) eqn:Hfail; wsimpl.
    + eexists; split; [reflexivity|]. wsimpl. rewrite <- app_assoc.
      split_and!; eauto. congruence.
    + rewrite Hf. eexists; split; [reflexivity|]. wsimpl. rewrite <- app_assoc.
      split_and!; eauto.
      * intros _. apply lookup_delete_eq.
      * intros p Hp. by rewrite lookup_delete_ne.
  - apply eq_None_not_Some in Hex.
    eexists; split; [reflexivity|]. wsimpl. split_and!; eauto.
Qed.

(** Every way through the guarded part of [submit]: it returns a
    redirect, flashes one message, starts with the face detector, and is a
    registration, a verified login or a rejection. *)
Lemma submit_try_spec env mode email reg temp w :
  ∃ resp w' m c tr,
    submit_try env mode email reg temp w = (Ok resp, w')
    ∧ flashes w' = (flashes w ++ [(m, c)])%list
    ∧ trace w' = (trace w ++ EvExtractFaces temp :: tr)%list
    ∧ ((mode = "register" ∧ m = MsgRegistered ∧ c = CatSuccess
        ∧ resp = Redirect EpDashboard
        ∧ tr = ([EvExists reg; EvReplace temp reg] ++ session_events email)%list
        ∧ session w' = logged_in_session email (session w)
        ∧ extract_faces env (fs w) temp = Ok 1%nat
        ∧ fs w !! reg = None
        ∧ ∃ f, fs w !! temp = Some f
               ∧ fs w' = <[reg := f]> (delete temp (fs w)))
       ∨ (mode ≠ "register" ∧ m = MsgWelcomeBack email ∧ c = CatSuccess
          ∧ resp = Redirect EpDashboard
          ∧ tr = ([EvExists reg; EvVerify temp reg] ++ session_events email)%list
          ∧ session w' = logged_in_session email (session w)
          ∧ extract_faces env (fs w) temp = Ok 1%nat
          ∧ is_Some (fs w !! reg)
          ∧ fs w' = fs w
          ∧ ∃ res, verify env (fs w) temp reg = Ok res
                   ∧ vr_verified res = Some true)
       ∨ (is_rejection m = true ∧ resp = Redirect EpHome
          ∧ session w' = session w ∧ fs w' = fs w
          ∧ (tr = [] ∨ tr = [EvExists reg]
             ∨ tr = [EvExists reg; EvReplace temp reg]
             ∨ tr = [EvExists reg; EvVerify temp reg]
               ∧ is_Some (fs w !! reg)))).
Proof.
  unfold submit_try, single_face_present. munfold.
  repeat mstep; simplify_eq; wsimpl.
  all: do 5 eexists; split; [reflexivity|]; wsimpl.
  all: rewrite <- ?app_assoc; simpl.
  all: split; [reflexivity|]; split; [reflexivity|].
  all: breflect.
  all: try (right; right; split; [reflexivity|]; split; [reflexivity|];
            split; [reflexivity|]; split; [reflexivity|]; auto 6; fail).
  - left. split_and!; try reflexivity; try done.
    + by apply eq_None_not_Some.
    + eauto.
  - right; left.
    match goal with
    | H : default false (vr_verified ?v) = true |- _ =>
        destruct (vr_verified v) as [[]|] eqn:Hv; try discriminate
    end.
    split_and!; try reflexivity; try done. eauto.
Qed.

(** [submit] with a missing field. *)
Lemma submit_missing env form w :
  missing_fields form = true →
  submit env form w = (Ok (Redirect EpHome), add_flash MsgMissing CatError w).
Proof.
  unfold missing_fields, upload, submit. intros ->. reflexivity.
Qed.

(** [submit] whose upload cannot be saved. *)
Lemma submit_undecodable env form w e w1 :
  missing_fields form = false →
  save_base64_image env (upload form)
    (temp_path (form_email form) (urandom4 env)) w = (Raise e, w1) →
  submit env form w
  = (Ok (Redirect EpHome), add_flash (MsgDecodeError e) CatError w1).
Proof.
  unfold missing_fields, upload, submit. intros -> Hs.
  unfold try_catch, bind at 1 2. unfold upload in Hs. rewrite Hs. reflexivity.
Qed.

(** [submit] whose upload was saved goes through the guarded part and
    the [finally] block. *)
Lemma submit_after_save env form w w1 :
  missing_fields form = false →
  save_base64_image env (upload form)
    (temp_path (form_email form) (urandom4 env)) w = (Ok tt, w1) →
  submit env form w
  = finally
      (submit_try env (default "" (form !! "mode")) (form_email form)
         (registered_path (form_email form))
         (temp_path (form_email form) (urandom4 env)))
      (cleanup_temp env (temp_path (form_email form) (urandom4 env))) w1.
Proof.
  unfold missing_fields, upload, submit. intros -> Hs.
  unfold try_catch, bind at 1 2. unfold upload in Hs. rewrite Hs. reflexivity.
Qed.

(** A saved upload means that no field was missing from a non-empty
    email and a valid mode. *)
Lemma saved_not_missing env form p w w1 :
  PyStr.is_empty (form_email form) = false →
  bad_mode (form !! "mode") = false →
  save_base64_image env (upload form) p w = (Ok tt, w1) →
  missing_fields form = false.
Proof.
  intros He Hm Hs. unfold missing_fields. rewrite He, Hm. simpl.
  apply save_base64_image_ok in Hs as (h & enc & d & Hsplit & _).
  by destruct (upload form).
Qed.

(** ** Login: 1:1 verification against the stored reference *)

(** C1.  A login submission with a non-empty email, whose upload was
    decoded and saved ([w1] is the world after [save_base64_image]), in
    which the detector finds exactly one face, and for which the reference
    file [ref] of the sanitized email exists, calls the external verifier
    on the temporary file, which holds the decoded upload, and on the
    reference path, which still holds [ref].  The request is redirected to
    the dashboard, with the session set, if and only if the verifier
    returns a result whose [verified] field is true.  When that field is
    not true the session is left as it was and the flashed message carries
    the similarity [max(0, (1 - distance) * 100)] (which the f-string
    prints with one decimal); when the verifier raises, the error is
    flashed instead. *)
Theorem C1_login_verification env form w w1 ref vout :
  let email := form_email form in
  let temp := temp_path email (urandom4 env) in
  let reg := registered_path email in
  form !! "mode" = Some "login" →
  PyStr.is_empty email = false →
  save_base64_image env (upload form) temp w = (Ok tt, w1) →
  extract_faces env (fs w1) temp = Ok 1%nat →
  fs w !! reg = Some ref →
  verify env (fs w1) temp reg = vout →
  ∃ resp w' tr,
    submit env form w = (Ok resp, w')
    ∧ trace w'
      = (trace w1 ++ [EvExtractFaces temp; EvExists reg; EvVerify temp reg]
           ++ tr)%list
    ∧ reg = "students/" ++ sanitize_email email ++ ".jpg"
    ∧ fs w1 !! reg = Some ref
    ∧ (∃ header enc data,
          PyStr.split1 "," (upload form) = [header; enc]
          ∧ b64decode env enc = Ok data
          ∧ fs w1 !! temp = Some (File data (now env)))
    ∧ (resp = Redirect EpDashboard
       ↔ ∃ res, vout = Ok res ∧ vr_verified res = Some true)
    ∧ match vout with
      | Ok res =>
          match vr_verified res with
          | Some true =>
              resp = Redirect EpDashboard
              ∧ session w' = logged_in_session email (session w)
              ∧ flashes w'
                = (flashes w ++ [(MsgWelcomeBack email, CatSuccess)])%list
          | _ =>
              let d := default 1%Q (vr_distance res) in
              resp = Redirect EpHome
              ∧ session w' = session w
              ∧ flashes w'
                = (flashes w ++ [(MsgNotRecognized (similarity d), CatError)])%list
              ∧ (similarity d == Qmax 0 ((1 - d) * 100))%Q
          end
      | Raise e =>
          resp = Redirect EpHome
          ∧ session w' = session w
          ∧ flashes w' = (flashes w ++ [(MsgAuthError e, CatError)])%list
      end.
Proof.
  intros email temp reg Hmode Hemail Hsave Hface Href Hver.
  subst email temp reg vout.
  assert (Hnm : missing_fields form = false).
  { eapply saved_not_missing; eauto. by rewrite Hmode. }
  rewrite (submit_after_save _ _ _ _ Hnm Hsave), Hmode.
  change (default "" (Some "login")) with "login".
  destruct (save_base64_image_ok _ _ _ _ _ Hsave)
    as (header & enc & data & Hsplit & Hnest & Hdec & Hfs & Hsess & Hfl & _ & _).
  destruct (temp_not_nested _ _ Hnest) as (_ & Hkey & _).
  assert (Hreg1 : fs w1 !! registered_path (form_email form) = Some ref).
  { rewrite Hfs, lookup_insert_ne; [done | apply temp_neq_registered]. }
  assert (Htemp1 : fs w1 !! temp_path (form_email form) (urandom4 env)
                   = Some (File data (now env))).
  { rewrite Hfs. apply lookup_insert_eq. }
  rewrite <- Hsess, <- Hfl.
  unfold finally, submit_try, single_face_present. munfold. wsimpl.
  rewrite Hface. cbn [Nat.eqb negb]. wsimpl.
  change (String.eqb "login" "register") with false. wsimpl.
  rewrite Hreg1, bool_decide_eq_true_2 by eauto. cbn [negb]. wsimpl.
  destruct (verify env (fs w1) _ _) as [res|e]; wsimpl;
    [destruct (vr_verified res) as [[]|] eqn:Hv;
     cbn [default from_option id]; wsimpl|];
    rewrite ?Htemp1, ?bool_decide_eq_true_2 by eauto;
    destruct (remove_refused env _); wsimpl; rewrite ?Htemp1.
  all: eexists _, _, _; split; [reflexivity|]; wsimpl.
  all: rewrite <- ?app_assoc; simpl.
  all: split; [reflexivity|].
  all: split; [exact Hkey|].
  all: split; [done|]; split; [by exists header, enc, data|].
  all: split;
    [split; [try discriminate; intros _; by exists res
            | intros (? & ? & ?); simplify_eq; try done]|].
  all: cbv zeta; split_and!; try reflexivity; try done;
    apply similarity_max.
Qed.

Lemma C1_login_verification_witness :
  ∃ w', submit (demo_env 2000) (form_of "login" " A@b.C " image_hello)
          (enrolled "a@b.c" 1000)
        = (Ok (Redirect EpDashboard), w')
        ∧ session w' !! "email" = Some (PStr "a@b.c").
Proof.
  destruct (C1_login_verification (demo_env 2000)
              (form_of "login" " A@b.C " image_hello) (enrolled "a@b.c" 1000)
              (save_base64_image (demo_env 2000) image_hello
                 "students/temp_a_at_b_c_61626364.jpg"
                 (enrolled "a@b.c" 1000)).2
              (File "hello" 1000)
              (Ok (VerifyResult (Some true) (Some 0%Q))))
    as (resp & w' & tr & Hrun & _ & _ & _ & _ & Hiff & Hres);
    try (vm_compute; reflexivity).
  cbv beta iota in Hres. destruct Hres as (-> & Hsess & _).
  exists w'. split; [exact Hrun|].
  rewrite Hsess. apply logged_in_session_lookup.
Defined.

(** ** Every run of [submit] *)

Lemma mode_cases (form : gmap string string) :
  bad_mode (form !! "mode") = false →
  form !! "mode" = Some "register" ∨ form !! "mode" = Some "login".
Proof.
  destruct (form !! "mode") as [m|]; [|done]. simpl. intros H.
  apply negb_false_iff, orb_true_iff in H as [H|H];
    apply String.eqb_eq in H; subst; auto.
Qed.

(** [submit] always returns a redirect and flashes exactly one message.
    Either the request is rejected before the upload is saved, or the
    upload is saved (world [w1]) and the request is a registration, a
    verified login or a rejection, followed by the [finally] block. *)
Lemma submit_spec env form w :
  let email := form_email form in
  let temp := temp_path email (urandom4 env) in
  let reg := registered_path email in
  ∃ resp w' m c tr,
    submit env form w = (Ok resp, w')
    ∧ flashes w' = (flashes w ++ [(m, c)])%list
    ∧ trace w' = (trace w ++ tr)%list
    ∧ ((is_rejection m = true ∧ resp = Redirect EpHome
        ∧ session w' = session w
        ∧ (tr = [] ∨ tr = [EvOpenWb temp]
           ∨ ∃ enc, tr = [EvOpenWb temp; EvB64Decode enc])
        ∧ (missing_fields form = true
           ∨ ∃ e w1, save_base64_image env (upload form) temp w
                     = (Raise e, w1)))
       ∨ ∃ w1 enc,
           missing_fields form = false
           ∧ save_base64_image env (upload form) temp w = (Ok tt, w1)
           ∧ (remove_refused env temp = false → fs w' !! temp = None)
           ∧ let saved := [EvOpenWb temp; EvB64Decode enc; EvWrite temp;
                           EvExtractFaces temp] in
             ((form !! "mode" = Some "register" ∧ m = MsgRegistered
               ∧ c = CatSuccess ∧ resp = Redirect EpDashboard
               ∧ session w' = logged_in_session email (session w)
               ∧ tr = (saved ++ [EvExists reg; EvReplace temp reg]
                         ++ session_events email ++ [EvExists temp])%list
               ∧ extract_faces env (fs w1) temp = Ok 1%nat
               ∧ fs w !! reg = None
               ∧ fs w' !! temp = None
               ∧ fs w' !! reg = fs w1 !! temp)
              ∨ (form !! "mode" = Some "login"
                 ∧ m = MsgWelcomeBack email
                 ∧ c = CatSuccess ∧ resp = Redirect EpDashboard
                 ∧ session w' = logged_in_session email (session w)
                 ∧ tr = (saved ++ [EvExists reg; EvVerify temp reg]
                           ++ session_events email
                           ++ [EvExists temp; EvRemove temp])%list
                 ∧ extract_faces env (fs w1) temp = Ok 1%nat
                 ∧ is_Some (fs w !! reg)
                 ∧ ∃ res, verify env (fs w1) temp reg = Ok res
                          ∧ vr_verified res = Some true)
              ∨ (is_rejection m = true ∧ resp = Redirect EpHome
                 ∧ session w' = session w
                 ∧ ∃ mid,
                     tr = (saved ++ mid ++ [EvExists temp; EvRemove temp])%list
                     ∧ (mid = [] ∨ mid = [EvExists reg]
                        ∨ mid = [EvExists reg; EvReplace temp reg]
                        ∨ mid = [EvExists reg; EvVerify temp reg]
                          ∧ is_Some (fs w !! reg))))).
Proof.
  intros email temp reg.
  destruct (missing_fields form) eqn:Hmf.
  { rewrite submit_missing by done.
    eexists _, _, _, _, []. split; [reflexivity|]. wsimpl.
    rewrite app_nil_r. split_and!; try reflexivity. left. split_and!; auto. }
  destruct (save_base64_image env (upload form) temp w) as [[[]|e] w1] eqn:Hs.
  2:{ rewrite (submit_undecodable _ _ _ _ _ Hmf Hs).
      destruct (save_base64_image_raise _ _ _ _ _ _ Hs)
        as (Hsess & Hfl & _ & _ & tr & Htr & Hshape).
      eexists _, _, _, _, tr. split; [reflexivity|]. wsimpl. rewrite Hfl.
      split_and!; try reflexivity; try done. left. split_and!; eauto. }
  rewrite (submit_after_save _ _ _ _ Hmf Hs). unfold finally.
  fold email. fold temp. fold reg.
  destruct (save_base64_image_ok _ _ _ _ _ Hs)
    as (header & enc & data & _ & _ & _ & Hfs & Hsess & Hfl & _ & Htr).
  assert (Htemp1 : fs w1 !! temp = Some (File data (now env))).
  { rewrite Hfs. apply lookup_insert_eq. }
  assert (Hreg1 : fs w1 !! reg = fs w !! reg).
  { rewrite Hfs. apply lookup_insert_ne, temp_neq_registered. }
  assert (Hmode : bad_mode (form !! "mode") = false).
  { unfold missing_fields in Hmf.
    by apply orb_false_iff in Hmf as [[_ ?]%orb_false_iff _]. }
  destruct (submit_try_spec env (default "" (form !! "mode")) email reg temp w1)
    as (resp & w2 & m & c & tr & -> & Hfl2 & Htr2 & Hcases).
  destruct (cleanup_temp_spec env temp w2)
    as (w3 & -> & Hsess3 & Hfl3 & _ & Hgone & Hother & Hclean).
  destruct Hcases as
    [(Hm & -> & -> & -> & -> & Hsess2 & Hface & Hnone & f & Hf & Hfs2)
    |[(Hm & -> & -> & -> & -> & Hsess2 & Hface & Hsome & Hfs2 & res & Hv & Hres)
     |(Hrej & -> & Hsess2 & Hfs2 & Hmid)]].
  - (* registration *)
    assert (Hnone2 : fs w2 !! temp = None).
    { rewrite Hfs2, lookup_insert_ne by (symmetry; apply temp_neq_registered).
      apply lookup_delete_eq. }
    destruct Hclean as [(Htr3 & _ & Hfs3)|(_ & [? Hbad])]; [|congruence].
    eexists _, _, _, _, _. split; [reflexivity|].
    rewrite Hfl3, Hfl2, Hfl, Hsess3. split; [reflexivity|].
    rewrite Htr3, Htr2, Htr, <- !app_assoc. split; [reflexivity|].
    right. exists w1, enc. split_and!; try done.
    left. rewrite Hsess2, Hsess. split_and!; try reflexivity; try done.
    + destruct (mode_cases _ Hmode) as [H|H]; [done|]. by rewrite H in Hm.
    + by rewrite <- Hreg1.
    + by rewrite Hfs3.
    + rewrite Hfs3, Hfs2, lookup_insert_eq. congruence.
  - (* verified login *)
    destruct Hclean as [(_ & Hbad & _)|(Htr3 & _)]; [congruence|].
    eexists _, _, _, _, _. split; [reflexivity|].
    rewrite Hfl3, Hfl2, Hfl, Hsess3. split; [reflexivity|].
    rewrite Htr3, Htr2, Htr, <- !app_assoc. split; [reflexivity|].
    right. exists w1, enc. split_and!; try done.
    right; left. rewrite Hsess2, Hsess. split_and!; try reflexivity; try done.
    + destruct (mode_cases _ Hmode) as [H|H]; [by rewrite H in Hm|done].
    + by rewrite <- Hreg1.
    + by exists res.
  - (* rejection after the upload was saved *)
    destruct Hclean as [(_ & Hbad & _)|(Htr3 & _)]; [congruence|].
    eexists _, _, _, _, _. split; [reflexivity|].
    rewrite Hfl3, Hfl2, Hfl, Hsess3. split; [reflexivity|].
    rewrite Htr3, Htr2, Htr, <- !app_assoc. split; [reflexivity|].
    right. exists w1, enc. split_and!; try done.
    right; right. rewrite Hsess2, Hsess. split_and!; try done.
    exists tr. split; [reflexivity|].
    rewrite <- Hreg1. tauto.
Qed.

(** ** Registration: where the reference is stored *)

(** C2.  A register submission with a non-empty email, whose upload was
    decoded and saved ([w1] is the world after [save_base64_image]), in
    which the detector finds exactly one face, and with no file at
    [students/<sanitize_email(email)>.jpg], enrolls the user: that path is
    the reference path that [submit] computes, the handler moves the
    temporary file onto it with [os.replace], and afterwards the decoded
    upload is the file at exactly that path, the temporary file is gone and
    no other file has changed; the registration is flashed and the request
    redirected to the dashboard.  [sanitize_email] strips, lowercases, and
    replaces [@] by [_at_] and [.] by [_]. *)
Theorem C2_registration_enrolls env form w w1 :
  let email := form_email form in
  let temp := temp_path email (urandom4 env) in
  let key := "students/" ++ sanitize_email email ++ ".jpg" in
  form !! "mode" = Some "register" →
  PyStr.is_empty email = false →
  save_base64_image env (upload form) temp w = (Ok tt, w1) →
  extract_faces env (fs w1) temp = Ok 1%nat →
  fs w !! key = None →
  ∃ w' header enc data,
    submit env form w = (Ok (Redirect EpDashboard), w')
    ∧ registered_path email = key
    ∧ sanitize_email email
      = PyStr.replace "." "_"
          (PyStr.replace "@" "_at_" (PyStr.lower (PyStr.strip email)))
    ∧ PyStr.split1 "," (upload form) = [header; enc]
    ∧ b64decode env enc = Ok data
    ∧ fs w' !! key = Some (File data (now env))
    ∧ fs w' !! temp = None
    ∧ fs w' = <[key := File data (now env)]> (delete temp (fs w))
    ∧ In (EvReplace temp key) (new_events w w')
    ∧ flashes w' = (flashes w ++ [(MsgRegistered, CatSuccess)])%list.
Proof.
  intros email temp key Hmode Hemail Hsave Hface Hnone.
  destruct (save_base64_image_ok _ _ _ _ _ Hsave)
    as (header & enc & data & Hsplit & Hnest & Hdec & Hfs & _ & Hfl & _ & Htr).
  destruct (temp_not_nested _ _ Hnest) as (_ & Hkey & Hnest').
  fold email key in Hkey. rewrite Hkey in Hnest'.
  subst email temp.
  assert (Hnm : missing_fields form = false).
  { eapply saved_not_missing; eauto. by rewrite Hmode. }
  rewrite (submit_after_save _ _ _ _ Hnm Hsave), Hmode, Hkey.
  change (default "" (Some "register")) with "register".
  assert (Hne : temp_path (form_email form) (urandom4 env) ≠ key).
  { rewrite <- Hkey. apply temp_neq_registered. }
  assert (Hreg1 : fs w1 !! key = None).
  { by rewrite Hfs, lookup_insert_ne. }
  assert (Htemp1 : fs w1 !! temp_path (form_email form) (urandom4 env)
                   = Some (File data (now env))).
  { rewrite Hfs. apply lookup_insert_eq. }
  rewrite <- Hfl.
  unfold finally, submit_try, single_face_present. munfold. wsimpl.
  rewrite Hface. cbn [Nat.eqb negb]. wsimpl.
  change (String.eqb "register" "register") with true. wsimpl.
  rewrite Hreg1, bool_decide_eq_false_2 by (by intros [? ?]). wsimpl.
  rewrite Hnest'. wsimpl. rewrite Htemp1. wsimpl.
  rewrite lookup_insert_ne, lookup_delete_eq by done.
  rewrite bool_decide_eq_false_2 by (by intros [? ?]).
  eexists _, header, enc, data. split; [reflexivity|]. wsimpl.
  split_and!; try done.
  - apply lookup_insert_eq.
  - rewrite lookup_insert_ne, lookup_delete_eq by done. done.
  - by rewrite Hfs, delete_insert_eq.
  - unfold new_events. wsimpl. rewrite Htr, <- !app_assoc.
    rewrite drop_app_length. simpl. tauto.
Qed.

Lemma C2_registration_enrolls_witness :
  ∃ w', submit (demo_env 1000) (form_of "register" " Alice.Smith@Example.COM "
                                  image_hello) (world_of ∅)
        = (Ok (Redirect EpDashboard), w')
        ∧ fs w' !! "students/alice_smith_at_example_com.jpg"
          = Some (File "hello" 1000).
Proof.
  destruct (C2_registration_enrolls (demo_env 1000)
              (form_of "register" " Alice.Smith@Example.COM " image_hello)
              (world_of ∅)
              (save_base64_image (demo_env 1000) image_hello
                 "students/temp_alice_smith_at_example_com_61626364.jpg"
                 (world_of ∅)).2)
    as (w' & header & enc & data & Hrun & _);
    try (vm_compute; reflexivity).
  exists w'. split; [exact Hrun|].
  vm_compute in Hrun. injection Hrun as <-. reflexivity.
Defined.

(** An email whose sanitized name contains a slash cannot register:
    its temporary path lies in a directory that does not exist, and the
    submission ends with the decoding error. *)
Example register_with_slash_rejected :
  let '(r, w') := submit (demo_env 1000)
                    (form_of "register" "/tmp/x" image_hello) (world_of ∅) in
  r = Ok (Redirect EpHome)
  ∧ flashes w'
    = [(MsgDecodeError (OSError "No such file or directory"), CatError)]
  ∧ fs w' = ∅.
Proof. vm_compute. by split_and!. Qed.

(** ** The order of the steps of [submit] *)

Lemma api_first_of_bool (temp reg : string) (tr : list event) :
  temp ≠ reg →
  (String.eqb temp reg = false → api_firstb temp reg false tr = true) →
  api_first temp reg tr.
Proof.
  intros Hne Hb. apply api_firstb_api_first, Hb. by apply String.eqb_neq.
Qed.

Ltac api_first_tac :=
  apply api_first_of_bool; [apply temp_neq_registered|];
  let H := fresh in
  intros H;
  cbn [api_firstb is_effect negb orb andb app session_events];
  rewrite ?String.eqb_refl, ?H; reflexivity.

(** A successful login sets the session flag before its only update of
    the file system, the removal of the temporary file in the [finally]
    block: the order "update a file-system path, and only then set the
    session flag" does not hold for it. *)
Lemma C3_login_sets_session_before_cleanup : ¬ order_as_specified.
Proof.
  intros H.
  specialize (H (demo_env 2000) (form_of "login" "a@b.c" image_hello)
                (enrolled "a@b.c" 1000)
                (submit (demo_env 2000) (form_of "login" "a@b.c" image_hello)
                   (enrolled "a@b.c" 1000)).2).
  assert (Hrun : new_events (enrolled "a@b.c" 1000)
            (submit (demo_env 2000) (form_of "login" "a@b.c" image_hello)
               (enrolled "a@b.c" 1000)).2
          = ([EvOpenWb "students/temp_a_at_b_c_61626364.jpg";
              EvB64Decode "aGVsbG8=";
              EvWrite "students/temp_a_at_b_c_61626364.jpg";
              EvExtractFaces "students/temp_a_at_b_c_61626364.jpg";
              EvExists "students/a_at_b_c.jpg";
              EvVerify "students/temp_a_at_b_c_61626364.jpg"
                "students/a_at_b_c.jpg"]
             ++ session_events "a@b.c"
             ++ [EvExists "students/temp_a_at_b_c_61626364.jpg";
                 EvRemove "students/temp_a_at_b_c_61626364.jpg"])%list)
    by (vm_compute; reflexivity).
  rewrite Hrun in H. vm_compute in H.
  assert (false = true) as Habs by (apply H; reflexivity).
  discriminate Habs.
Qed.

(** C3 (amended).  Every submission returns, and in the calls it makes no
    session key is set and the reference path of its email is not written
    before the face detector has been called on the saved upload.  A
    submission that ends on the dashboard makes exactly these calls, in
    this order: it opens the temporary file, decodes the upload, writes it,
    calls the detector; then a registration moves the temporary file onto
    the reference path and only then sets the session, whereas a login
    calls the verifier, sets the session, and removes the temporary file
    afterwards, in the [finally] block. *)
Theorem C3_order_of_steps env form w :
  let email := form_email form in
  let temp := temp_path email (urandom4 env) in
  let reg := registered_path email in
  ∃ resp w' tr,
    submit env form w = (Ok resp, w')
    ∧ trace w' = (trace w ++ tr)%list
    ∧ api_first temp reg tr
    ∧ (resp = Redirect EpDashboard →
       ∃ enc,
         let saved := [EvOpenWb temp; EvB64Decode enc; EvWrite temp;
                       EvExtractFaces temp] in
         (form !! "mode" = Some "register"
          ∧ tr = (saved ++ [EvExists reg; EvReplace temp reg]
                    ++ session_events email ++ [EvExists temp])%list
          ∧ specified_order tr = true)
         ∨ (form !! "mode" = Some "login"
            ∧ tr = (saved ++ [EvExists reg; EvVerify temp reg]
                      ++ session_events email
                      ++ [EvExists temp; EvRemove temp])%list
            ∧ specified_order tr = false)).
Proof.
  intros email temp reg.
  destruct (submit_spec env form w)
    as (resp & w' & m & c & tr & Hrun & _ & Htr & Hcases).
  fold email temp reg in Hcases.
  exists resp, w', tr. split; [exact Hrun|]. split; [exact Htr|].
  destruct Hcases as
    [(_ & -> & _ & Hshape & _)
    |(w1 & enc & _ & _ & _ &
      [(Hm & _ & _ & -> & _ & -> & _)
      |[(Hm & _ & _ & -> & _ & -> & _)
       |(_ & -> & _ & mid & -> & Hmid)]])].
  - split; [|discriminate].
    destruct Hshape as [->|[->|[enc ->]]]; api_first_tac.
  - split; [api_first_tac|]. intros _. exists enc. by left.
  - split; [api_first_tac|]. intros _. exists enc. by right.
  - split; [|discriminate].
    destruct Hmid as [->|[->|[->|[-> _]]]]; api_first_tac.
Qed.

(** ** Cleanup of the temporary file *)

(** C4.  When the temporary file of a submission was written, whatever
    the outcome, the handler returns a response (no exception leaves it)
    and the last thing it does is the [finally] block on the temporary
    path: it tests the path, and either the file is no longer there (a
    successful registration has moved it) or it calls [os.remove] on it.
    Unless that removal is refused, which is swallowed, the temporary file
    does not exist once the request is handled. *)
Theorem C4_temp_file_cleanup env form w w1 :
  let temp := temp_path (form_email form) (urandom4 env) in
  missing_fields form = false →
  save_base64_image env (upload form) temp w = (Ok tt, w1) →
  ∃ resp w' tr,
    submit env form w = (Ok resp, w')
    ∧ (trace w' = (tr ++ [EvExists temp])%list ∧ fs w' !! temp = None
       ∨ trace w' = (tr ++ [EvExists temp; EvRemove temp])%list)
    ∧ (remove_refused env temp = false → fs w' !! temp = None).
Proof.
  intros temp Hmf Hsave.
  destruct (submit_spec env form w)
    as (resp & w' & m & c & tr & Hrun & _ & Htr & Hcases).
  fold temp in Hcases.
  destruct Hcases as
    [(_ & _ & _ & _ & [Hbad|(e & w0 & Hbad)])
    |(w0 & enc & _ & _ & Hgone &
      [(_ & _ & _ & _ & _ & -> & _ & _ & Hnone & _)
      |[(_ & _ & _ & _ & _ & -> & _)
       |(_ & _ & _ & mid & -> & _)]])]; try congruence.
  - exists resp, w'. eexists. split; [exact Hrun|]. split; [|exact Hgone].
    left. split; [|exact Hnone].
    rewrite Htr. unfold session_events. rewrite !app_assoc. reflexivity.
  - exists resp, w'. eexists. split; [exact Hrun|]. split; [|exact Hgone].
    right. rewrite Htr. unfold session_events.
    change [EvExists temp; EvRemove temp]
      with ([] ++ [EvExists temp; EvRemove temp])%list at 1.
    rewrite !app_assoc. rewrite app_nil_r. reflexivity.
  - exists resp, w'. eexists. split; [exact Hrun|]. split; [|exact Hgone].
    right. rewrite Htr. rewrite !app_assoc. reflexivity.
Qed.

Lemma C4_temp_file_cleanup_witness :
  ∃ resp w',
    submit (demo_env 2000) (form_of "login" "a@b.c" image_world)
      (enrolled "a@b.c" 1000) = (Ok resp, w')
    ∧ fs w' !! "students/temp_a_at_b_c_61626364.jpg" = None.
Proof.
  destruct (C4_temp_file_cleanup (demo_env 2000)
              (form_of "login" "a@b.c" image_world) (enrolled "a@b.c" 1000)
              (save_base64_image (demo_env 2000) image_world
                 "students/temp_a_at_b_c_61626364.jpg"
                 (enrolled "a@b.c" 1000)).2)
    as (resp & w' & tr & Hrun & _ & Hgone);
    try (vm_compute; reflexivity).
  exists resp, w'. split; [exact Hrun|]. apply Hgone. reflexivity.
Defined.

(** ** Exceptions of the face-recognition library *)

Lemma single_face_present_raise env p w e :
  extract_faces env (fs w) p = Raise e →
  single_face_present env p w
  = (Ok false,
     add_log LvlError (MsgFaceDetectionError e) (add_event (EvExtractFaces p) w)).
Proof.
  intros H. unfold single_face_present. munfold. wsimpl. by rewrite H.
Qed.

Lemma submit_returns env form w :
  ∃ resp w', submit env form w = (Ok resp, w').
Proof.
  destruct (submit_spec env form w) as (resp & w' & _ & _ & _ & Hrun & _).
  by exists resp, w'.
Qed.

(** C5.  No exception of the face-recognition library leaves the request
    handler: [submit] returns a response in every environment.  If
    [extract_faces] raises, [single_face_present] logs the error and
    returns [False], and the submission is redirected home with the
    detection error flashed.  If, in a login that reached the verifier,
    [verify] raises [e], the submission logs and flashes the
    authentication error [e] and is redirected home; the session is not
    touched in either case. *)
Theorem C5_backend_exceptions_caught env form w w1 e :
  let email := form_email form in
  let temp := temp_path email (urandom4 env) in
  let reg := registered_path email in
  missing_fields form = false →
  save_base64_image env (upload form) temp w = (Ok tt, w1) →
  (∀ form0 w0, ∃ resp w', submit env form0 w0 = (Ok resp, w'))
  ∧ (∀ p w0, extract_faces env (fs w0) p = Raise e →
       single_face_present env p w0
       = (Ok false,
          add_log LvlError (MsgFaceDetectionError e)
            (add_event (EvExtractFaces p) w0)))
  ∧ (extract_faces env (fs w1) temp = Raise e →
     ∃ w', submit env form w = (Ok (Redirect EpHome), w')
           ∧ flashes w' = (flashes w ++ [(MsgNoFace, CatError)])%list
           ∧ logs w' = (logs w ++ [(LvlError, MsgFaceDetectionError e)])%list
           ∧ session w' = session w)
  ∧ (form !! "mode" = Some "login" →
     extract_faces env (fs w1) temp = Ok 1%nat →
     is_Some (fs w !! reg) →
     verify env (fs w1) temp reg = Raise e →
     ∃ w', submit env form w = (Ok (Redirect EpHome), w')
           ∧ flashes w' = (flashes w ++ [(MsgAuthError e, CatError)])%list
           ∧ logs w' = (logs w ++ [(LvlError, MsgAuthError e)])%list
           ∧ session w' = session w).
Proof.
  intros email temp reg Hmf Hsave. subst email temp reg.
  split; [intros; apply submit_returns|].
  split; [intros; by apply single_face_present_raise|].
  destruct (save_base64_image_ok _ _ _ _ _ Hsave)
    as (header & enc & data & _ & _ & _ & Hfs & Hsess & Hfl & Hlog & _).
  assert (Htemp1 : fs w1 !! temp_path (form_email form) (urandom4 env)
                   = Some (File data (now env))).
  { rewrite Hfs. apply lookup_insert_eq. }
  rewrite (submit_after_save _ _ _ _ Hmf Hsave).
  rewrite <- Hsess, <- Hfl, <- Hlog.
  split.
  - intros Hface.
    unfold finally, submit_try, single_face_present. munfold. wsimpl.
    rewrite Hface. cbn [negb]. wsimpl.
    rewrite Htemp1, bool_decide_eq_true_2 by eauto.
    destruct (remove_refused env _); wsimpl; rewrite ?Htemp1;
      eexists; (split; [reflexivity|]); wsimpl; by split_and!.
  - intros Hmode Hface [ref Href] Hver. rewrite Hmode.
    change (default "" (Some "login")) with "login".
    assert (Hreg1 : fs w1 !! registered_path (form_email form) = Some ref).
    { rewrite Hfs, lookup_insert_ne; [done | apply temp_neq_registered]. }
    unfold finally, submit_try, single_face_present. munfold. wsimpl.
    rewrite Hface. cbn [Nat.eqb negb]. wsimpl.
    change (String.eqb "login" "register") with false. wsimpl.
    rewrite Hreg1, bool_decide_eq_true_2 by eauto. cbn [negb]. wsimpl.
    rewrite Hver. wsimpl.
    rewrite Htemp1, bool_decide_eq_true_2 by eauto.
    destruct (remove_refused env _); wsimpl; rewrite ?Htemp1;
      eexists; (split; [reflexivity|]); wsimpl; by split_and!.
Qed.

Lemma C5_backend_exceptions_caught_witness :
  (∃ w', submit (demo_env 2000) (form_of "login" "a@b.c" image_world)
           (enrolled "a@b.c" 1000) = (Ok (Redirect EpHome), w')
         ∧ flashes w'
           = [(MsgRegistered, CatSuccess); (MsgNoFace, CatError)])
  ∧ (∃ w', submit (broken_verify_env 2000)
             (form_of "login" "a@b.c" image_hello) (enrolled "a@b.c" 1000)
           = (Ok (Redirect EpHome), w')
           ∧ flashes w'
             = [(MsgRegistered, CatSuccess);
                (MsgAuthError (LibraryError "RuntimeError" "model not loaded"),
                 CatError)]).
Proof.
  split.
  - destruct (C5_backend_exceptions_caught (demo_env 2000)
                (form_of "login" "a@b.c" image_world) (enrolled "a@b.c" 1000)
                (save_base64_image (demo_env 2000) image_world
                   "students/temp_a_at_b_c_61626364.jpg"
                   (enrolled "a@b.c" 1000)).2
                (ValueError "Face could not be detected"))
      as (_ & _ & Hface & _); try (vm_compute; reflexivity).
    destruct Hface as (w' & Hrun & Hfl & _); [vm_compute; reflexivity|].
    exists w'. split; [exact Hrun | exact Hfl].
  - destruct (C5_backend_exceptions_caught (broken_verify_env 2000)
                (form_of "login" "a@b.c" image_hello) (enrolled "a@b.c" 1000)
                (save_base64_image (broken_verify_env 2000) image_hello
                   "students/temp_a_at_b_c_61626364.jpg"
                   (enrolled "a@b.c" 1000)).2
                (LibraryError "RuntimeError" "model not loaded"))
      as (_ & _ & _ & Hver); try (vm_compute; reflexivity).
    destruct Hver as (w' & Hrun & Hfl & _); try (vm_compute; reflexivity).
    { exists (File "hello" 1000). vm_compute. reflexivity. }
    exists w'. split; [exact Hrun | exact Hfl].
Defined.

(** ** The session flag *)

(** A registration whose upload was saved and shows one face, for an
    email without a reference, is redirected to the dashboard. *)
Lemma registration_accepted env form w w1 :
  missing_fields form = false →
  form !! "mode" = Some "register" →
  save_base64_image env (upload form)
    (temp_path (form_email form) (urandom4 env)) w = (Ok tt, w1) →
  extract_faces env (fs w1) (temp_path (form_email form) (urandom4 env))
  = Ok 1%nat →
  fs w !! registered_path (form_email form) = None →
  (submit env form w).1 = Ok (Redirect EpDashboard).
Proof.
  intros Hnm Hmode Hsave Hface Hnone.
  destruct (save_base64_image_ok _ _ _ _ _ Hsave)
    as (header & enc & data & _ & Hnest & _ & Hfs & _).
  destruct (temp_not_nested _ _ Hnest) as (_ & _ & Hnest').
  rewrite (submit_after_save _ _ _ _ Hnm Hsave), Hmode.
  change (default "" (Some "register")) with "register".
  set (temp := temp_path (form_email form) (urandom4 env)) in *.
  set (reg := registered_path (form_email form)) in *.
  assert (Hne : temp ≠ reg) by apply temp_neq_registered.
  assert (Hreg1 : fs w1 !! reg = None) by by rewrite Hfs, lookup_insert_ne.
  assert (Htemp1 : fs w1 !! temp = Some (File data (now env))).
  { rewrite Hfs. apply lookup_insert_eq. }
  unfold finally, submit_try, single_face_present. munfold. wsimpl.
  rewrite Hface. cbn [Nat.eqb negb]. wsimpl.
  change (String.eqb "register" "register") with true. wsimpl.
  rewrite Hreg1, bool_decide_eq_false_2 by (by intros [? ?]). wsimpl.
  rewrite Hnest'. wsimpl. rewrite Htemp1. wsimpl.
  rewrite lookup_insert_ne, lookup_delete_eq by done.
  by rewrite bool_decide_eq_false_2 by (by intros [? ?]).
Qed.

(** A login whose upload was saved and shows one face, for an email with
    a reference that the verifier accepts, is redirected to the
    dashboard. *)
Lemma verified_login_accepted env form w w1 res :
  missing_fields form = false →
  form !! "mode" = Some "login" →
  save_base64_image env (upload form)
    (temp_path (form_email form) (urandom4 env)) w = (Ok tt, w1) →
  extract_faces env (fs w1) (temp_path (form_email form) (urandom4 env))
  = Ok 1%nat →
  is_Some (fs w !! registered_path (form_email form)) →
  verify env (fs w1) (temp_path (form_email form) (urandom4 env))
    (registered_path (form_email form)) = Ok res →
  vr_verified res = Some true →
  (submit env form w).1 = Ok (Redirect EpDashboard).
Proof.
  intros Hnm Hmode Hsave Hface [ref Href] Hver Hres.
  destruct (save_base64_image_ok _ _ _ _ _ Hsave)
    as (header & enc & data & _ & _ & _ & Hfs & _).
  rewrite (submit_after_save _ _ _ _ Hnm Hsave), Hmode.
  change (default "" (Some "login")) with "login".
  set (temp := temp_path (form_email form) (urandom4 env)) in *.
  set (reg := registered_path (form_email form)) in *.
  assert (Hne : temp ≠ reg) by apply temp_neq_registered.
  assert (Hreg1 : fs w1 !! reg = Some ref) by by rewrite Hfs, lookup_insert_ne.
  assert (Htemp1 : fs w1 !! temp = Some (File data (now env))).
  { rewrite Hfs. apply lookup_insert_eq. }
  unfold finally, submit_try, single_face_present. munfold. wsimpl.
  rewrite Hface. cbn [Nat.eqb negb]. wsimpl.
  change (String.eqb "login" "register") with false. wsimpl.
  rewrite Hreg1, bool_decide_eq_true_2 by eauto. cbn [negb]. wsimpl.
  rewrite Hver. wsimpl. rewrite Hres. cbn [default from_option id]. wsimpl.
  rewrite Htemp1, bool_decide_eq_true_2 by eauto.
  destruct (remove_refused env temp); wsimpl; by rewrite ?Htemp1.
Qed.

(** C6.  Every submission returns a redirect and flashes one message.
    Either it is a successful registration (message [MsgRegistered], mode
    [register], the saved upload now at the reference path) or a verified
    login (message [MsgWelcomeBack], mode [login], a verifier result whose
    [verified] field is true): then it redirects to the dashboard and the
    session holds [logged_in = True] and [email] = the submitted email,
    stripped and lowercased.  Or it is one of the rejections (missing
    fields, undecodable image, face-count failure, already registered, no
    stored reference, verification failure, exception): then it redirects
    home, the session is what it was, and no session key was written.
    Which of the two it is, the request decides: the submission ends on
    the dashboard, with the session set, if and only if no field is
    missing, the upload was saved, the detector finds exactly one face in
    it, and either the mode is [register] and the email has no reference
    yet, or the mode is [login], the email has a reference, and the
    verifier returns a result whose [verified] field is true. *)
Theorem C6_session_flag env form w :
  let email := PyStr.lower (PyStr.strip (default "" (form !! "email"))) in
  let temp := temp_path email (urandom4 env) in
  let reg := registered_path email in
  ∃ resp w' m c tr,
    submit env form w = (Ok resp, w')
    ∧ flashes w' = (flashes w ++ [(m, c)])%list
    ∧ trace w' = (trace w ++ tr)%list
    ∧ ((resp = Redirect EpDashboard
        ∧ (m = MsgRegistered ∧ form !! "mode" = Some "register"
           ∧ In (EvReplace temp reg) tr ∧ is_Some (fs w' !! reg)
           ∨ m = MsgWelcomeBack email ∧ form !! "mode" = Some "login"
             ∧ ∃ data res,
                 In (EvVerify temp reg) tr
                 ∧ verify env (<[temp := File data (now env)]> (fs w)) temp reg
                   = Ok res
                 ∧ vr_verified res = Some true)
        ∧ session w' !! "logged_in" = Some (PBool true)
        ∧ session w' !! "email" = Some (PStr email)
        ∧ session w' = logged_in_session email (session w))
       ∨ (resp = Redirect EpHome
          ∧ is_rejection m = true
          ∧ session w' = session w
          ∧ ∀ key v, ¬ In (EvSessionSet key v) tr))
    ∧ (resp = Redirect EpDashboard
       ↔ missing_fields form = false
         ∧ ∃ w1,
             save_base64_image env (upload form) temp w = (Ok tt, w1)
             ∧ extract_faces env (fs w1) temp = Ok 1%nat
             ∧ (form !! "mode" = Some "register" ∧ fs w !! reg = None
                ∨ form !! "mode" = Some "login" ∧ is_Some (fs w !! reg)
                  ∧ ∃ res, verify env (fs w1) temp reg = Ok res
                           ∧ vr_verified res = Some true)).
Proof.
  intros email temp reg.
  destruct (submit_spec env form w)
    as (resp & w' & m & c & tr & Hrun & Hfl & Htr & Hcases).
  change (form_email form) with email in Hcases. fold temp reg in Hcases.
  exists resp, w', m, c, tr. split_and!; try done.
  2:{ split.
      - intros ->.
        destruct Hcases as
          [(_ & Hbad & _)
          |(w1 & enc & Hnm & Hsave & _ &
            [(Hmode & _ & _ & _ & _ & _ & Hface & Hnone & _)
            |[(Hmode & _ & _ & _ & _ & _ & Hface & Hsome & res & Hv & Hres)
             |(_ & Hbad & _)]])]; try discriminate.
        + split; [done|]. exists w1. split_and!; try done. by left.
        + split; [done|]. exists w1. split_and!; try done.
          right. split_and!; try done. by exists res.
      - intros (Hnm & w1 & Hsave & Hface & Hmode).
        assert (Hok : (submit env form w).1 = Ok (Redirect EpDashboard)).
        { destruct Hmode as [[Hmode Hnone]
                            |(Hmode & Hsome & res & Hv & Hres)].
          - by apply (registration_accepted env form w w1).
          - by apply (verified_login_accepted env form w w1 res). }
        rewrite Hrun in Hok. simpl in Hok. congruence. }
  destruct Hcases as
    [(Hrej & -> & Hsess & Hshape & _)
    |(w1 & enc & _ & Hsave & _ &
      [(Hm & -> & _ & -> & Hsess & -> & _ & _ & _ & Hreg)
      |[(Hm & -> & _ & -> & Hsess & -> & _ & _ & res & Hv & Hres)
       |(Hrej & -> & Hsess & mid & -> & Hmid)]])].
  - right. split_and!; try done. intros key v.
    destruct Hshape as [->|[->|[enc ->]]]; simpl; intuition discriminate.
  - left. rewrite Hsess. split_and!; try done;
      try apply logged_in_session_lookup.
    left. split_and!; try done.
    + simpl. tauto.
    + rewrite Hreg.
      destruct (save_base64_image_ok _ _ _ _ _ Hsave)
        as (_ & _ & data & _ & _ & _ & Hfs & _).
      rewrite Hfs, lookup_insert_eq. eauto.
  - left. rewrite Hsess. split_and!; try done;
      try apply logged_in_session_lookup.
    right. split_and!; try done.
    destruct (save_base64_image_ok _ _ _ _ _ Hsave)
      as (_ & _ & data & _ & _ & _ & Hfs & _).
    exists data, res. rewrite <- Hfs. split_and!; try done.
    simpl. tauto.
  - right. split_and!; try done. intros key v.
    destruct Hmid as [->|[->|[->|[-> _]]]]; simpl; intuition discriminate.
Qed.

Lemma C6_session_flag_witness :
  ∃ w', submit (demo_env 1000) (form_of "register" " A@B.c " image_hello)
          (world_of ∅) = (Ok (Redirect EpDashboard), w')
        ∧ session w' !! "logged_in" = Some (PBool true)
        ∧ session w' !! "email" = Some (PStr "a@b.c").
Proof.
  destruct (C6_session_flag (demo_env 1000)
              (form_of "register" " A@B.c " image_hello) (world_of ∅))
    as (resp & w' & m & c & tr & Hrun & _ & _ & Hclass & Hiff).
  assert (resp = Redirect EpDashboard) as ->.
  { apply Hiff. split; [vm_compute; reflexivity|].
    exists (save_base64_image (demo_env 1000) image_hello
              "students/temp_a_at_b_c_61626364.jpg" (world_of ∅)).2.
    split; [vm_compute; reflexivity|]. split; [vm_compute; reflexivity|].
    left. split; vm_compute; reflexivity. }
  exists w'. split; [exact Hrun|].
  destruct Hclass as [(_ & _ & Hflag & Hmail & _)|(Hbad & _)];
    [|discriminate Hbad].
  split; [exact Hflag | exact Hmail].
Defined.

(** ** The store is keyed by the sanitized email *)

(** A login whose upload was saved and shows one face, for an email
    without a reference file, flashes the register-first error; it calls
    the detector and tests two paths, nothing else. *)
Lemma login_without_reference env form w w1 :
  let email := form_email form in
  let temp := temp_path email (urandom4 env) in
  let reg := registered_path email in
  form !! "mode" = Some "login" →
  missing_fields form = false →
  save_base64_image env (upload form) temp w = (Ok tt, w1) →
  extract_faces env (fs w1) temp = Ok 1%nat →
  fs w !! reg = None →
  ∃ w', submit env form w = (Ok (Redirect EpHome), w')
        ∧ flashes w' = (flashes w ++ [(MsgRegisterFirst, CatError)])%list
        ∧ session w' = session w
        ∧ trace w' = (trace w1 ++ [EvExtractFaces temp; EvExists reg;
                                   EvExists temp; EvRemove temp])%list.
Proof.
  intros email temp reg Hmode Hmf Hsave Hface Hnone. subst email temp reg.
  destruct (save_base64_image_ok _ _ _ _ _ Hsave)
    as (header & enc & data & _ & _ & _ & Hfs & Hsess & Hfl & _ & _).
  assert (Htemp1 : fs w1 !! temp_path (form_email form) (urandom4 env)
                   = Some (File data (now env))).
  { rewrite Hfs. apply lookup_insert_eq. }
  assert (Hreg1 : fs w1 !! registered_path (form_email form) = None).
  { rewrite Hfs, lookup_insert_ne; [done | apply temp_neq_registered]. }
  rewrite (submit_after_save _ _ _ _ Hmf Hsave), Hmode.
  change (default "" (Some "login")) with "login".
  rewrite <- Hsess, <- Hfl.
  unfold finally, submit_try, single_face_present. munfold. wsimpl.
  rewrite Hface. cbn [Nat.eqb negb]. wsimpl.
  change (String.eqb "login" "register") with false. wsimpl.
  rewrite Hreg1, bool_decide_eq_false_2 by (by intros [? ?]).
  cbn [negb]. wsimpl.
  rewrite Htemp1, bool_decide_eq_true_2 by eauto.
  destruct (remove_refused env _); wsimpl; rewrite ?Htemp1;
    eexists; (split; [reflexivity|]); wsimpl; rewrite <- ?app_assoc;
    by split_and!.
Qed.

(** A login without a reference is not always answered with the
    register-first error: when its picture shows no face it is rejected
    with the detection error, because the face check comes first. *)
Lemma C7_login_without_face_not_register_first :
  let form := form_of "login" "a@b.c" image_world in
  let w := world_of ∅ in
  fs w !! ("students/" ++ sanitize_email (form_email form) ++ ".jpg") = None
  ∧ ∃ w', submit (demo_env 2000) form w = (Ok (Redirect EpHome), w')
          ∧ flashes w' = [(MsgNoFace, CatError)]
          ∧ flashes w' ≠ [(MsgRegisterFirst, CatError)].
Proof.
  split; [reflexivity|].
  eexists. split; [vm_compute; reflexivity|]. by split.
Qed.

(** [sanitize_email] keeps a leading slash, and [os.path.join] then drops
    the directory: for such an email [check_email] tests a path outside
    the store. *)
Lemma check_email_escapes_store :
  let files : gmap string file := {["/tmp/x.jpg" := File "hello" 1000]} in
  let form : gmap string string := {["email" := "/tmp/x"]} in
  (check_email form (world_of files)).1
  = Ok (Json [("registered", PBool true)] 200)
  ∧ files !! ("students/" ++ sanitize_email (form_email form) ++ ".jpg") = None.
Proof. vm_compute. by split. Qed.

(** C7 (amended).  For every email whose sanitized name does not start
    with a slash: [check_email] answers 400 exactly when the stripped
    email is empty, and otherwise reports [registered] = whether the file
    [students/<sanitize_email(email)>.jpg] exists; and a login submission
    for such an email whose reference file does not exist is rejected
    (redirected home, session unchanged) without any call of the external
    verifier, with the register-first error when its upload was saved and
    shows exactly one face. *)
Theorem C7_store_keyed_by_sanitized_email env form w :
  let email := form_email form in
  let key := "students/" ++ sanitize_email email ++ ".jpg" in
  let temp := temp_path email (urandom4 env) in
  PyStr.startswith "/" (sanitize_email email) = false →
  check_email form w
  = (if PyStr.is_empty (PyStr.strip (default "" (form !! "email")))
     then (Ok (Json [("error", PStr "Email required")] 400), w)
     else (Ok (Json [("registered",
                      PBool (bool_decide (is_Some (fs w !! key))))] 200),
           add_event (EvExists key) w))
  ∧ (form !! "mode" = Some "login" → fs w !! key = None →
     ∃ w' tr,
       submit env form w = (Ok (Redirect EpHome), w')
       ∧ session w' = session w
       ∧ trace w' = (trace w ++ tr)%list
       ∧ (∀ p1 p2, ¬ In (EvVerify p1 p2) tr)
       ∧ (∀ w1, PyStr.is_empty email = false →
            save_base64_image env (upload form) temp w = (Ok tt, w1) →
            extract_faces env (fs w1) temp = Ok 1%nat →
            flashes w' = (flashes w ++ [(MsgRegisterFirst, CatError)])%list)).
Proof.
  intros email key temp Hflat.
  assert (Hkey : registered_path email = key) by by apply registered_path_flat.
  split.
  - unfold check_email. fold email. rewrite Hkey.
    replace (PyStr.is_empty (PyStr.strip (default "" (form !! "email"))))
      with (PyStr.is_empty email) by apply lower_is_empty.
    by destruct (PyStr.is_empty email).
  - intros Hmode Hnone.
    destruct (submit_spec env form w)
      as (resp & w' & m & c & tr & Hrun & Hfl & Htr & Hcases).
    fold email temp in Hcases. rewrite Hkey in Hcases.
    assert (Hmsg : ∀ w1, PyStr.is_empty email = false →
              save_base64_image env (upload form) temp w = (Ok tt, w1) →
              extract_faces env (fs w1) temp = Ok 1%nat →
              flashes w' = (flashes w ++ [(MsgRegisterFirst, CatError)])%list).
    { intros w1 Hemail Hsave Hface.
      assert (Hmf : missing_fields form = false).
      { eapply saved_not_missing; eauto. by rewrite Hmode. }
      destruct (login_without_reference env form w w1)
        as (w'' & Hrun' & Hfl' & _); try done.
      { fold email. by rewrite Hkey. }
      rewrite Hrun in Hrun'. by injection Hrun' as _ ->. }
    destruct Hcases as
      [(_ & -> & Hsess & Hshape & _)
      |(w1 & enc & _ & _ & _ &
        [(Hm & _)
        |[(_ & _ & _ & _ & _ & _ & _ & [? Hsome] & _)
         |(_ & -> & Hsess & mid & -> & Hmid)]])]; try congruence.
    + exists w', tr. split_and!; try done. intros p1 p2.
      destruct Hshape as [->|[->|[enc ->]]]; simpl; intuition discriminate.
    + exists w'. eexists. split_and!; try done. intros p1 p2.
      destruct Hmid as [->|[->|[->|[-> [? Hsome]]]]]; try congruence;
        simpl; intuition discriminate.
Qed.

Lemma C7_store_keyed_by_sanitized_email_witness :
  (check_email (form_of "login" "A@b.c" image_hello)
     (enrolled "a@b.c" 1000)).1
  = Ok (Json [("registered", PBool true)] 200)
  ∧ ∃ w', submit (demo_env 2000) (form_of "login" "x@y.z" image_hello)
            (enrolled "a@b.c" 1000) = (Ok (Redirect EpHome), w')
          ∧ flashes w'
            = [(MsgRegistered, CatSuccess); (MsgRegisterFirst, CatError)].
Proof.
  split.
  - destruct (C7_store_keyed_by_sanitized_email (demo_env 2000)
                (form_of "login" "A@b.c" image_hello) (enrolled "a@b.c" 1000))
      as [Hcheck _]; [vm_compute; reflexivity|].
    rewrite Hcheck. vm_compute. reflexivity.
  - destruct (C7_store_keyed_by_sanitized_email (demo_env 2000)
                (form_of "login" "x@y.z" image_hello) (enrolled "a@b.c" 1000))
      as [_ Hlogin]; [vm_compute; reflexivity|].
    destruct Hlogin as (w' & tr & Hrun & _ & _ & _ & Hmsg);
      try (vm_compute; reflexivity).
    exists w'. split; [exact Hrun|].
    apply (Hmsg (save_base64_image (demo_env 2000) image_hello
                   "students/temp_x_at_y_z_61626364.jpg"
                   (enrolled "a@b.c" 1000)).2);
      vm_compute; reflexivity.
Defined.

(** ** The sweep of old temporary files *)

Lemma temp_name_joined (name : string) :
  PyStr.startswith "temp_" name = true →
  path_join STUDENTS_DIR name = "students/" ++ name.
Proof.
  intros H. rewrite path_join_students.
  destruct name as [|c name]; [done|].
  unfold PyStr.startswith in *. cbn [String.prefix] in *.
  destruct (Ascii.ascii_dec "t" c) as [<-|Hc]; [|done].
  by destruct (Ascii.ascii_dec "/" "t").
Qed.

(** One turn of the loop leaves the file system as it is or removes one
    old temporary file; it touches neither the session nor the flashes. *)
Lemma cleanup_file_frame env name w :
  ∃ r w', cleanup_file env name w = (r, w')
    ∧ session w' = session w ∧ flashes w' = flashes w
    ∧ (fs w' = fs w
       ∨ ∃ f, fs w !! ("students/" ++ name) = Some f
              ∧ old_temp_file (now env) name f
              ∧ fs w' = delete ("students/" ++ name) (fs w)).
Proof.
  unfold cleanup_file.
  destruct (PyStr.startswith "temp_" name) eqn:Hpre.
  2:{ eexists _, _. split; [reflexivity|]. auto. }
  rewrite (temp_name_joined _ Hpre). munfold. wsimpl.
  destruct (fs w !! ("students/" ++ name)) as [f|] eqn:Hf; wsimpl.
  2:{ eexists _, _. split; [reflexivity|]. wsimpl. auto. }
  destruct (mtime f <? now env - MAX_FILE_AGE_DAYS * 86400)%Z eqn:Hold; wsimpl.
  2:{ eexists _, _. split; [reflexivity|]. wsimpl. auto. }
  apply Z.ltb_lt in Hold.
  destruct (remove_refused env _); wsimpl.
  { eexists _, _. split; [reflexivity|]. wsimpl. auto. }
  rewrite Hf. eexists _, _. split; [reflexivity|]. wsimpl.
  split_and!; try done. right. exists f. by split_and!.
Qed.

Lemma cleanup_loop_frame env names w :
  ∃ r w', for_each names (cleanup_file env) w = (r, w')
    ∧ session w' = session w ∧ flashes w' = flashes w
    ∧ ∀ p, fs w' !! p = fs w !! p
           ∨ fs w' !! p = None
             ∧ ∃ name f, p = "students/" ++ name ∧ fs w !! p = Some f
                         ∧ old_temp_file (now env) name f.
Proof.
  revert w. induction names as [|name names IH]; intros w.
  { eexists _, _. split; [reflexivity|]. auto. }
  destruct (cleanup_file_frame env name w)
    as (r1 & w1 & Hrun1 & Hsess1 & Hfl1 & Hstep).
  assert (Hstep' : ∀ p, fs w1 !! p = fs w !! p
            ∨ fs w1 !! p = None
              ∧ ∃ name f, p = "students/" ++ name ∧ fs w !! p = Some f
                          ∧ old_temp_file (now env) name f).
  { intros p. destruct Hstep as [->|(f & Hf & Hold & ->)]; [by left|].
    destruct (decide (p = "students/" ++ name)) as [->|Hp].
    - right. rewrite lookup_delete_eq. split; [done|]. by exists name, f.
    - left. by rewrite lookup_delete_ne. }
  simpl. unfold bind at 1. rewrite Hrun1. destruct r1 as [[]|e].
  2:{ eexists _, _. split; [reflexivity|]. auto. }
  destruct (IH w1) as (r & w' & -> & Hsess & Hfl & Hrest).
  exists r, w'. split; [reflexivity|].
  split; [congruence|]. split; [congruence|].
  intros p. destruct (Hrest p) as [Heq|(Hnone & n & f & -> & Hf & Hold)].
  - rewrite Heq. apply Hstep'.
  - right. split; [done|]. exists n, f. split_and!; try done.
    destruct (Hstep' ("students/" ++ n)) as [<-|[Hbad _]]; [done|congruence].
Qed.

(** What [cleanup_old_files] may do: it never raises, and every path of
    the file system either keeps its file or held an old temporary file of
    the store, which is removed. *)
Lemma cleanup_old_files_frame env w :
  ∃ w', cleanup_old_files env w = (Ok tt, w')
    ∧ session w' = session w ∧ flashes w' = flashes w
    ∧ ∀ p, fs w' !! p = fs w !! p
           ∨ fs w' !! p = None
             ∧ ∃ name f, p = "students/" ++ name ∧ fs w !! p = Some f
                         ∧ old_temp_file (now env) name f.
Proof.
  unfold cleanup_old_files, os_listdir, try_catch, bind at 1 2, emit.
  destruct (cleanup_loop_frame env (listdir (fs w) STUDENTS_DIR)
              (add_event (EvListdir STUDENTS_DIR) w))
    as (r & w' & Hrun & Hsess & Hfl & Hframe).
  wsimpl. rewrite Hrun. destruct r as [[]|e].
  - by exists w'.
  - unfold log. eexists. split; [reflexivity|]. wsimpl. auto.
Qed.

(** C8.  [cleanup_old_files] does remove a registered reference image.
    The reference of the email [temp_a@b.c] is the file
    [students/temp_a_at_b_c.jpg], whose name starts with [temp_]; thirty
    days and a second after the enrollment, loading the home page deletes
    it, and [check_email] then reports the email as not registered. *)
Theorem C8_cleanup_removes_registered_reference :
  let email := "temp_a@b.c" in
  let later := (1000 + MAX_FILE_AGE_DAYS * 86400 + 1)%Z in
  let w1 := enrolled email 1000 in
  let w2 := (home (demo_env later) w1).2 in
  registered_path email = "students/temp_a_at_b_c.jpg"
  ∧ session w1 !! "logged_in" = Some (PBool true)
  ∧ fs w1 !! registered_path email = Some (File "hello" 1000)
  ∧ (check_email {["email" := email]} w1).1
    = Ok (Json [("registered", PBool true)] 200)
  ∧ fs w2 !! registered_path email = None
  ∧ (check_email {["email" := email]} w2).1
    = Ok (Json [("registered", PBool false)] 200).
Proof. vm_compute. by split_and!. Qed.

(** ** Two emails, one reference file *)

Lemma form_of_lookup (mode email image : string) :
  form_of mode email image !! "mode" = Some mode
  ∧ form_of mode email image !! "email" = Some email
  ∧ form_of mode email image !! "image_data" = Some image.
Proof.
  unfold form_of. split_and!.
  - apply lookup_insert_eq.
  - rewrite lookup_insert_ne by done. apply lookup_insert_eq.
  - rewrite !lookup_insert_ne by done. apply lookup_insert_eq.
Qed.

(** The email reaches the guarded part of [submit] in two ways: through
    the paths, and as the value written to the session and greeted in the
    flash.  The response and the file system depend on the paths only. *)
Lemma submit_try_email_irrelevant env mode e1 e2 reg temp w :
  ∃ r w1 w2,
    submit_try env mode e1 reg temp w = (r, w1)
    ∧ submit_try env mode e2 reg temp w = (r, w2)
    ∧ fs w1 = fs w2.
Proof.
  unfold submit_try, single_face_present. munfold.
  repeat mstep; simplify_eq; wsimpl.
  all: by eexists _, _, _.
Qed.

Lemma cleanup_temp_fs env temp w1 w2 :
  fs w1 = fs w2 →
  ∃ w1' w2',
    cleanup_temp env temp w1 = (Ok tt, w1')
    ∧ cleanup_temp env temp w2 = (Ok tt, w2')
    ∧ fs w1' = fs w2'.
Proof.
  intros Hfs. munfold. wsimpl. rewrite Hfs.
  repeat mstep; simplify_eq; wsimpl.
  all: eexists _, _; split_and!; try reflexivity; wsimpl; congruence.
Qed.

(** Two submissions that differ only in emails of the same sanitized name
    get the same response and leave the same file system. *)
Lemma submit_same_name env form1 form2 w :
  form1 !! "mode" = form2 !! "mode" →
  form1 !! "image_data" = form2 !! "image_data" →
  PyStr.is_empty (form_email form1) = PyStr.is_empty (form_email form2) →
  sanitize_email (form_email form1) = sanitize_email (form_email form2) →
  (submit env form1 w).1 = (submit env form2 w).1
  ∧ fs (submit env form1 w).2 = fs (submit env form2 w).2.
Proof.
  intros Hmode Himg Hemp Hname.
  assert (Hmf : missing_fields form1 = missing_fields form2).
  { unfold missing_fields, upload. by rewrite Hmode, Himg, Hemp. }
  assert (Hreg : registered_path (form_email form1)
                 = registered_path (form_email form2)).
  { unfold registered_path. by rewrite Hname. }
  assert (Htemp : temp_path (form_email form1) (urandom4 env)
                  = temp_path (form_email form2) (urandom4 env)).
  { unfold temp_path. by rewrite Hname. }
  destruct (missing_fields form2) eqn:Hmf2.
  { by rewrite !submit_missing. }
  destruct (save_base64_image env (upload form2)
              (temp_path (form_email form2) (urandom4 env)) w)
    as [[[]|e] w1] eqn:Hs.
  2:{ rewrite (submit_undecodable _ _ _ _ _ Hmf2 Hs).
      rewrite (submit_undecodable env form1 w e w1); [done|done|].
      unfold upload in *. by rewrite Himg, Htemp. }
  rewrite (submit_after_save _ _ _ _ Hmf2 Hs).
  rewrite (submit_after_save env form1 w w1); [|done|].
  2:{ unfold upload in *. by rewrite Himg, Htemp. }
  rewrite Hmode, Hreg, Htemp. unfold finally.
  destruct (submit_try_email_irrelevant env (default "" (form2 !! "mode"))
              (form_email form1) (form_email form2)
              (registered_path (form_email form2))
              (temp_path (form_email form2) (urandom4 env)) w1)
    as (r & wa & wb & -> & -> & Hfs).
  destruct (cleanup_temp_fs env (temp_path (form_email form2) (urandom4 env))
              wa wb Hfs) as (wa' & wb' & -> & -> & Hfs').
  done.
Qed.

(** C9.  [sanitize_email] is not injective: the distinct emails [a@b.c]
    and [a_at_b_c] have the same sanitized name, hence the same reference
    path.  In every world and environment [check_email] gives the same
    answer for both, and [submit] gives the same response and leaves the
    same file system for both.  Once [a@b.c] is enrolled, [a_at_b_c] is
    reported as registered, cannot register, and logs in against the
    picture of [a@b.c]. *)
Theorem C9_sanitize_email_not_injective :
  let e1 := "a@b.c" in
  let e2 := "a_at_b_c" in
  let w := enrolled e1 1000 in
  e1 ≠ e2
  ∧ sanitize_email e1 = sanitize_email e2
  ∧ registered_path e1 = "students/a_at_b_c.jpg"
  ∧ registered_path e2 = "students/a_at_b_c.jpg"
  ∧ (∀ w0, check_email {["email" := e1]} w0 = check_email {["email" := e2]} w0)
  ∧ (∀ env mode image w0,
       (submit env (form_of mode e1 image) w0).1
       = (submit env (form_of mode e2 image) w0).1
       ∧ fs (submit env (form_of mode e1 image) w0).2
         = fs (submit env (form_of mode e2 image) w0).2)
  ∧ map_to_list (fs w) = [("students/a_at_b_c.jpg", File "hello" 1000)]
  ∧ (check_email {["email" := e2]} w).1
    = Ok (Json [("registered", PBool true)] 200)
  ∧ (let '(r, w') := submit (demo_env 2000)
                       (form_of "register" e2 image_hello) w in
     r = Ok (Redirect EpHome)
     ∧ flashes w' = [(MsgRegistered, CatSuccess);
                     (MsgAlreadyRegistered, CatInfo)])
  ∧ (let '(r, w') := submit (demo_env 2000)
                       (form_of "login" e2 image_hello) w in
     r = Ok (Redirect EpDashboard)
     ∧ session w' !! "email" = Some (PStr e2)
     ∧ In (EvVerify "students/temp_a_at_b_c_61626364.jpg"
             "students/a_at_b_c.jpg") (new_events w w')).
Proof.
  intros e1 e2 w. split; [done|]. split; [reflexivity|].
  split; [reflexivity|]. split; [reflexivity|].
  split.
  { intros w0. unfold check_email.
    replace (form_email {["email" := e1]}) with e1 by (vm_compute; reflexivity).
    replace (form_email {["email" := e2]}) with e2 by (vm_compute; reflexivity).
    reflexivity. }
  split.
  { intros env mode image w0.
    destruct (form_of_lookup mode e1 image) as (Hm1 & He1 & Hi1).
    destruct (form_of_lookup mode e2 image) as (Hm2 & He2 & Hi2).
    apply submit_same_name.
    - by rewrite Hm1, Hm2.
    - by rewrite Hi1, Hi2.
    - unfold form_email. by rewrite He1, He2.
    - unfold form_email. by rewrite He1, He2. }
  vm_compute. split_and!; try reflexivity. tauto.
Qed.

(** ** The dashboard and logout *)

(** C10.  [dashboard] renders the dashboard page with the session email
    exactly when [session\['logged_in'\]] is truthy; otherwise it flashes
    the log-in-first error and redirects home.  [logout] always empties
    the session, whatever it held: every key is gone, and so are the
    messages that were flashed and not yet shown, so the only pending
    flash is the logged-out notice.  The dashboard, asked right after a
    logout, redirects home. *)
Theorem C10_dashboard_gate (w : World) :
  dashboard w
  = (if truthy (default PNone (session w !! "logged_in"))
     then (Ok (Render "dashboard.html"
                 [("email", default PNone (session w !! "email"))]), w)
     else (Ok (Redirect EpHome), add_flash MsgLoginFirst CatError w))
  ∧ ∃ w', logout w = (Ok (Redirect EpHome), w')
          ∧ session w' = ∅
          ∧ flashes w' = [(MsgLoggedOut, CatInfo)]
          ∧ fs w' = fs w
          ∧ dashboard w'
            = (Ok (Redirect EpHome), add_flash MsgLoginFirst CatError w').
Proof.
  split.
  - unfold dashboard. munfold.
    by destruct (truthy (default PNone (session w !! "logged_in"))).
  - unfold logout, dashboard. munfold. wsimpl.
    eexists. split; [reflexivity|]. wsimpl. by split_and!.
Qed.

(** * Further properties of the handlers *)

(** ** Names and normalisation *)

Lemma has_char_replace_old (old : ascii) (new s : string) :
  has_char old new = false → has_char old (PyStr.replace old new s) = false.
Proof.
  intros Hnew. induction s as [|c s IH]; [done|]. simpl.
  destruct (Ascii.eqb c old) eqn:Hc.
  - by rewrite has_char_app, Hnew, IH.
  - simpl. by rewrite Hc, IH.
Qed.

Lemma has_char_replace_other (c old : ascii) (new s : string) :
  c ≠ old → has_char c new = false →
  has_char c (PyStr.replace old new s) = has_char c s.
Proof.
  intros Hne Hnew. induction s as [|d s IH]; [done|]. simpl.
  destruct (Ascii.eqb d old) eqn:Hd.
  - apply Ascii.eqb_eq in Hd as ->. rewrite has_char_app, Hnew, IH. simpl.
    apply Ascii.eqb_neq in Hne. by rewrite Ascii.eqb_sym, Hne.
  - simpl. by rewrite IH.
Qed.

(** X1.  A sanitized name holds neither an at sign nor a dot, whatever
    the email: the only dot of a file name of the store is the one of its
    [.jpg] extension. *)
Theorem X1_sanitize_email_safe_chars (email : string) :
  has_char "@" (sanitize_email email) = false
  ∧ has_char "." (sanitize_email email) = false.
Proof.
  unfold sanitize_email. split.
  - rewrite has_char_replace_other by done.
    by apply has_char_replace_old.
  - by apply has_char_replace_old.
Qed.

Lemma lower_char_idem (c : ascii) :
  PyStr.lower_char (PyStr.lower_char c) = PyStr.lower_char c.
Proof. by destruct c as [[] [] [] [] [] [] [] []]. Qed.

Lemma is_space_lower_char (c : ascii) :
  PyStr.is_space (PyStr.lower_char c) = PyStr.is_space c.
Proof. by destruct c as [[] [] [] [] [] [] [] []]. Qed.

Lemma lower_idem (s : string) : PyStr.lower (PyStr.lower s) = PyStr.lower s.
Proof.
  induction s as [|c s IH]; [done|]. simpl. by rewrite lower_char_idem, IH.
Qed.

Lemma lstrip_lower (s : string) :
  PyStr.lstrip (PyStr.lower s) = PyStr.lower (PyStr.lstrip s).
Proof.
  induction s as [|c s IH]; [done|]. simpl.
  rewrite is_space_lower_char. by destruct (PyStr.is_space c).
Qed.

Lemma rstrip_lower (s : string) :
  PyStr.rstrip (PyStr.lower s) = PyStr.lower (PyStr.rstrip s).
Proof.
  induction s as [|c s IH]; [done|]. simpl. rewrite IH.
  destruct (PyStr.rstrip s) as [|d r]; simpl.
  - rewrite is_space_lower_char. by destruct (PyStr.is_space c).
  - done.
Qed.

Lemma strip_lower (s : string) :
  PyStr.strip (PyStr.lower s) = PyStr.lower (PyStr.strip s).
Proof. unfold PyStr.strip. by rewrite rstrip_lower, lstrip_lower. Qed.

Lemma rstrip_lstrip (s : string) :
  PyStr.rstrip (PyStr.lstrip s) = PyStr.lstrip (PyStr.rstrip s).
Proof.
  induction s as [|c s IH]; [done|].
  cbn [PyStr.lstrip]. destruct (PyStr.is_space c) eqn:Hc.
  - rewrite IH. cbn [PyStr.rstrip].
    destruct (PyStr.rstrip s) as [|d r]; cbn [PyStr.lstrip]; by rewrite Hc.
  - cbn [PyStr.rstrip].
    destruct (PyStr.rstrip s) as [|d r]; rewrite ?Hc; cbn [PyStr.lstrip];
      by rewrite Hc.
Qed.

Lemma lstrip_idem (s : string) :
  PyStr.lstrip (PyStr.lstrip s) = PyStr.lstrip s.
Proof.
  induction s as [|c s IH]; [done|]. cbn [PyStr.lstrip].
  destruct (PyStr.is_space c) eqn:Hc; [done|]. cbn [PyStr.lstrip].
  by rewrite Hc.
Qed.

Lemma rstrip_idem (s : string) :
  PyStr.rstrip (PyStr.rstrip s) = PyStr.rstrip s.
Proof.
  induction s as [|c s IH]; [done|]. cbn [PyStr.rstrip].
  destruct (PyStr.rstrip s) as [|d r] eqn:Hr.
  - destruct (PyStr.is_space c) eqn:Hc; [done|].
    cbn [PyStr.rstrip]. by rewrite Hc.
  - cbn [PyStr.rstrip] in *. by rewrite IH.
Qed.

Lemma strip_idem (s : string) : PyStr.strip (PyStr.strip s) = PyStr.strip s.
Proof.
  unfold PyStr.strip.
  by rewrite rstrip_lstrip, rstrip_idem, lstrip_idem.
Qed.

Lemma normalise_idem (s : string) :
  PyStr.lower (PyStr.strip (PyStr.lower (PyStr.strip s)))
  = PyStr.lower (PyStr.strip s).
Proof. by rewrite strip_lower, lower_idem, strip_idem. Qed.

(** X2.  [sanitize_email] strips and lower-cases by itself, so it gives
    the same name whether or not the caller has normalised the email
    first, as [submit] and [check_email] do; the reference path and the
    temporary path are the same as well. *)
Theorem X2_sanitize_email_normalised (email : string) :
  sanitize_email (PyStr.lower (PyStr.strip email)) = sanitize_email email
  ∧ registered_path (PyStr.lower (PyStr.strip email)) = registered_path email
  ∧ ∀ rnd, temp_path (PyStr.lower (PyStr.strip email)) rnd
           = temp_path email rnd.
Proof.
  assert (H : sanitize_email (PyStr.lower (PyStr.strip email))
              = sanitize_email email).
  { unfold sanitize_email. by rewrite normalise_idem. }
  unfold registered_path, temp_path. by rewrite H.
Qed.

Lemma form_email_insert (form : gmap string string) :
  form_email (<["email" := form_email form]> form) = form_email form.
Proof.
  unfold form_email at 1. rewrite lookup_insert_eq.
  cbn [default from_option id]. apply normalise_idem.
Qed.

Lemma submit_ext env (form1 form2 : gmap string string) :
  form1 !! "mode" = form2 !! "mode" →
  form_email form1 = form_email form2 →
  form1 !! "image_data" = form2 !! "image_data" →
  submit env form1 = submit env form2.
Proof. intros Hm He Hi. unfold submit. by rewrite Hm, He, Hi. Qed.

(** X3.  The handlers read the email field through
    [.strip().lower()] only: sending the normalised email in place of the
    raw one gives the same response and the same world, for [submit] and
    for [check_email]. *)
Theorem X3_normalised_email_field env (form : gmap string string) (w : World) :
  let form' := <["email" := form_email form]> form in
  submit env form' w = submit env form w
  ∧ check_email form' w = check_email form w.
Proof.
  intros form'. split.
  - rewrite (submit_ext env form' form); [done|..].
    + subst form'. by rewrite lookup_insert_ne.
    + apply form_email_insert.
    + subst form'. by rewrite lookup_insert_ne.
  - unfold check_email. subst form'. by rewrite form_email_insert.
Qed.

(** ** Saving the upload *)

Lemma split1_no_sep (sep : ascii) (s : string) :
  has_char sep s = false → PyStr.split1 sep s = [s].
Proof.
  induction s as [|c s IH]; [done|]. simpl.
  intros [Hc Hs]%orb_false_iff. by rewrite Hc, (IH Hs).
Qed.

Lemma split1_first (sep : ascii) (h rest : string) :
  has_char sep h = false →
  PyStr.split1 sep (h ++ String sep rest) = [h; rest].
Proof.
  induction h as [|c h IH]; simpl.
  - intros _. by rewrite Ascii.eqb_refl.
  - intros [Hc Hs]%orb_false_iff. by rewrite Hc, (IH Hs).
Qed.

Lemma save_base64_image_run env header payload p w :
  has_char "," header = false →
  nested_in_store p = false →
  open_refused env p = false →
  save_base64_image env (header ++ "," ++ payload) p w
  = match b64decode env payload with
    | Ok data =>
        (Ok tt,
         set_fs (insert p (File data (now env)))
           (add_event (EvWrite p)
              (add_event (EvB64Decode payload)
                 (set_fs (insert p (File "" (now env)))
                    (add_event (EvOpenWb p) w)))))
    | Raise e =>
        (Raise e,
         add_event (EvB64Decode payload)
           (set_fs (insert p (File "" (now env)))
              (add_event (EvOpenWb p) w)))
    end.
Proof.
  intros Hh Hn Ho. unfold save_base64_image.
  change ("," ++ payload) with (String "," payload).
  rewrite (split1_first _ _ _ Hh). munfold. wsimpl. rewrite Hn, Ho.
  by destruct (b64decode env payload).
Qed.

(** X4.  A data URL without a comma makes [save_base64_image] raise
    [ValueError("Invalid image data format")] before it opens the file:
    the world is as it was. *)
Theorem X4_save_without_comma env (img p : string) (w : World) :
  has_char "," img = false →
  save_base64_image env img p w
  = (Raise (ValueError "Invalid image data format"), w).
Proof.
  intros H. unfold save_base64_image. by rewrite (split1_no_sep _ _ H).
Qed.

Lemma X4_save_without_comma_witness :
  save_base64_image (demo_env 1000) "aGVsbG8=" "students/temp_x_00.jpg"
    (world_of ∅)
  = (Raise (ValueError "Invalid image data format"), world_of ∅).
Proof. apply X4_save_without_comma. reflexivity. Defined.

(** X5.  [save_base64_image] on [header,payload], where the header has
    no comma: the payload is all that follows the first comma.  The file
    is created (or truncated) before the payload is decoded; if the
    payload decodes, the file holds the decoded bytes; if the decoder
    raises, the exception leaves the function and the file stays behind,
    empty.  No other path, no session key and no flash is touched. *)
Theorem X5_save_payload_after_first_comma env header payload p w :
  has_char "," header = false →
  nested_in_store p = false →
  open_refused env p = false →
  ∃ r w1,
    save_base64_image env (header ++ "," ++ payload) p w = (r, w1)
    ∧ session w1 = session w ∧ flashes w1 = flashes w
    ∧ (∀ q, q ≠ p → fs w1 !! q = fs w !! q)
    ∧ match b64decode env payload with
      | Ok data =>
          r = Ok tt
          ∧ fs w1 !! p = Some (File data (now env))
          ∧ trace w1
            = (trace w ++ [EvOpenWb p; EvB64Decode payload; EvWrite p])%list
      | Raise e =>
          r = Raise e
          ∧ fs w1 !! p = Some (File "" (now env))
          ∧ trace w1 = (trace w ++ [EvOpenWb p; EvB64Decode payload])%list
      end.
Proof.
  intros Hh Hn Ho. rewrite (save_base64_image_run _ _ _ _ _ Hh Hn Ho).
  destruct (b64decode env payload) as [data|e]; eexists _, _;
    (split; [reflexivity|]); wsimpl; rewrite <- ?app_assoc;
    split_and!; try done.
  - intros q Hq. by rewrite !lookup_insert_ne.
  - apply lookup_insert_eq.
  - intros q Hq. by rewrite lookup_insert_ne.
  - apply lookup_insert_eq.
Qed.

Lemma X5_save_payload_after_first_comma_witness :
  ∃ w1, save_base64_image (demo_env 1000) "data:a,b;base64,aGVsbG8="
          "students/temp_x_00.jpg"
          (world_of {["students/temp_x_00.jpg" := File "old" 5]})
        = (Raise (LibraryError "binascii.Error" "Incorrect padding"), w1)
        ∧ fs w1 !! "students/temp_x_00.jpg" = Some (File "" 1000).
Proof.
  destruct (X5_save_payload_after_first_comma (demo_env 1000) "data:a"
              "b;base64,aGVsbG8=" "students/temp_x_00.jpg"
              (world_of {["students/temp_x_00.jpg" := File "old" 5]}))
    as (r & w1 & Hrun & _ & _ & _ & Hcase); try reflexivity.
  change (b64decode (demo_env 1000) "b;base64,aGVsbG8=")
    with (@Raise string (LibraryError "binascii.Error" "Incorrect padding"))
    in Hcase.
  destruct Hcase as (-> & Hfile & _).
  exists w1. split; [exact Hrun | exact Hfile].
Defined.

(** ** What a submission leaves on disk *)

(** X6.  A submission whose payload does not decode is redirected home
    with the decoding error flashed.  It returns before the [try] block
    with its [finally], so the empty temporary file that
    [save_base64_image] created is not removed. *)
Theorem X6_undecodable_upload_leaves_empty_temp env form w header payload e :
  let temp := temp_path (form_email form) (urandom4 env) in
  missing_fields form = false →
  upload form = header ++ "," ++ payload →
  has_char "," header = false →
  nested_in_store temp = false →
  open_refused env temp = false →
  b64decode env payload = Raise e →
  ∃ w',
    submit env form w = (Ok (Redirect EpHome), w')
    ∧ flashes w' = (flashes w ++ [(MsgDecodeError e, CatError)])%list
    ∧ session w' = session w
    ∧ fs w' = <[temp := File "" (now env)]> (fs w)
    ∧ trace w' = (trace w ++ [EvOpenWb temp; EvB64Decode payload])%list.
Proof.
  intros temp Hmf Hup Hh Hn Ho Hdec.
  pose proof (save_base64_image_run env header payload temp w Hh Hn Ho) as Hs.
  rewrite Hdec, <- Hup in Hs.
  rewrite (submit_undecodable _ _ _ _ _ Hmf Hs).
  eexists. split; [reflexivity|]. wsimpl. rewrite <- app_assoc.
  by split_and!.
Qed.

Lemma X6_undecodable_upload_leaves_empty_temp_witness :
  ∃ w', submit (demo_env 2000) (form_of "login" "a@b.c" "data:x,zzz")
          (world_of ∅) = (Ok (Redirect EpHome), w')
        ∧ fs w' = {["students/temp_a_at_b_c_61626364.jpg" := File "" 2000]}.
Proof.
  destruct (X6_undecodable_upload_leaves_empty_temp (demo_env 2000)
              (form_of "login" "a@b.c" "data:x,zzz") (world_of ∅)
              "data:x" "zzz"
              (LibraryError "binascii.Error" "Incorrect padding"))
    as (w' & Hrun & _ & _ & Hfs & _); try (vm_compute; reflexivity).
  exists w'. split; [exact Hrun|]. rewrite Hfs. reflexivity.
Defined.

Lemma save_base64_image_raise_fs env img p w e w1 :
  save_base64_image env img p w = (Raise e, w1) →
  fs w1 = fs w ∨ fs w1 = <[p := File "" (now env)]> (fs w).
Proof.
  unfold save_base64_image. munfold. intros H.
  destruct (PyStr.split1 "," img) as [|header [|enc [|? ?]]]; wsimpl.
  1,2,4: injection H as <- <-; by left.
  destruct (nested_in_store p); wsimpl.
  { injection H as <- <-. by left. }
  destruct (open_refused env p); wsimpl.
  { injection H as <- <-. by left. }
  destruct (b64decode env enc) as [data|e']; wsimpl; try discriminate.
  injection H as <- <-. by right.
Qed.

(** X7.  The temporary path after a submission.  If it was free before
    and the operating system does not refuse its removal, it is free
    again afterwards, with one exception: the submission that flashed a
    decoding error may leave the empty file there. *)
Theorem X7_only_failed_decoding_leaks_temp env form w :
  let temp := temp_path (form_email form) (urandom4 env) in
  fs w !! temp = None →
  remove_refused env temp = false →
  ∃ resp w' m c,
    submit env form w = (Ok resp, w')
    ∧ flashes w' = (flashes w ++ [(m, c)])%list
    ∧ (fs w' !! temp = None
       ∨ fs w' !! temp = Some (File "" (now env))
         ∧ ∃ e, m = MsgDecodeError e).
Proof.
  intros temp Hnone Hrem.
  destruct (missing_fields form) eqn:Hmf.
  { rewrite submit_missing by done. eexists _, _, _, _.
    split; [reflexivity|]. wsimpl. split; [reflexivity|]. by left. }
  destruct (save_base64_image env (upload form) temp w)
    as [[[]|e] w1] eqn:Hs.
  2:{ rewrite (submit_undecodable _ _ _ _ _ Hmf Hs).
      destruct (save_base64_image_raise _ _ _ _ _ _ Hs) as (_ & Hfl & _).
      eexists _, _, _, _. split; [reflexivity|]. wsimpl. rewrite Hfl.
      split; [reflexivity|].
      destruct (save_base64_image_raise_fs _ _ _ _ _ _ Hs) as [->| ->].
      - by left.
      - right. rewrite lookup_insert_eq. eauto. }
  destruct (submit_spec env form w)
    as (resp & w' & m & c & tr & Hrun & Hfl & _ & Hcases).
  exists resp, w', m, c. split; [exact Hrun|]. split; [exact Hfl|]. left.
  destruct Hcases as
    [(_ & _ & _ & _ & [Hbad|(e & w0 & Hbad)])
    |(w0 & enc & _ & _ & Hgone & _)].
  - congruence.
  - fold temp in Hbad. congruence.
  - by apply Hgone.
Qed.

Lemma X7_only_failed_decoding_leaks_temp_witness :
  ∃ resp w',
    submit (demo_env 2000) (form_of "login" "a@b.c" image_world)
      (enrolled "a@b.c" 1000) = (Ok resp, w')
    ∧ fs w' !! "students/temp_a_at_b_c_61626364.jpg" = None.
Proof.
  destruct (X7_only_failed_decoding_leaks_temp (demo_env 2000)
              (form_of "login" "a@b.c" image_world) (enrolled "a@b.c" 1000))
    as (resp & w' & m & c & Hrun & Hfl & Hcase);
    try (vm_compute; reflexivity).
  exists resp, w'. split; [exact Hrun|].
  destruct Hcase as [H|(_ & e & ->)]; [exact H|].
  exfalso. vm_compute in Hrun. injection Hrun as _ <-.
  vm_compute in Hfl. discriminate Hfl.
Defined.

(** ** The sweep, continued *)

(** X8.  [cleanup_old_files] never raises and touches neither the
    session nor the flashes.  Files only disappear; a file that
    disappeared lay in the store under a name starting with [temp_] and
    was older than thirty days (2592000 seconds), and a file that is not
    older than that is kept. *)
Theorem X8_cleanup_removes_only_old_temp_files env w :
  ∃ w',
    cleanup_old_files env w = (Ok tt, w')
    ∧ session w' = session w ∧ flashes w' = flashes w
    ∧ (∀ p, fs w' !! p = fs w !! p ∨ fs w' !! p = None)
    ∧ (∀ p f, fs w !! p = Some f → fs w' !! p = None →
         ∃ name, p = "students/" ++ name
                 ∧ PyStr.startswith "temp_" name = true
                 ∧ (mtime f < now env - 2592000)%Z)
    ∧ (∀ p f, fs w !! p = Some f → (now env - 2592000 ≤ mtime f)%Z →
         fs w' !! p = Some f).
Proof.
  destruct (cleanup_old_files_frame env w) as (w' & Hrun & Hs & Hf & Hframe).
  exists w'. split_and!; try done.
  - intros p. destruct (Hframe p) as [?|[? _]]; auto.
  - intros p f Hp Hnone.
    destruct (Hframe p) as [Heq|(_ & name & f' & -> & Hf' & Hpre & Hold)].
    + congruence.
    + exists name. split_and!; try done.
      assert (f' = f) as <- by congruence. exact Hold.
  - intros p f Hp Hage.
    destruct (Hframe p) as [Heq|(_ & name & f' & -> & Hf' & Hpre & Hold)].
    + congruence.
    + assert (f' = f) as -> by congruence.
      unfold MAX_FILE_AGE_DAYS in Hold. lia.
Qed.

Lemma string_app_inv_head (a b c : string) : a ++ b = a ++ c → b = c.
Proof. induction a as [|d a IH]; simpl; [done|]. intros [=]. auto. Qed.

Lemma strip_prefix_app (p s : string) : strip_prefix p (p ++ s) = Some s.
Proof.
  induction p as [|c p IH]; [by destruct s|]. simpl.
  by rewrite Ascii.eqb_refl.
Qed.

Lemma strip_prefix_Some (p s r : string) :
  strip_prefix p s = Some r → s = p ++ r.
Proof.
  revert s. induction p as [|c p IH]; intros s; simpl.
  - by intros [= ->].
  - destruct s as [|d s]; [done|].
    destruct (Ascii.eqb c d) eqn:Hc; [|done].
    apply Ascii.eqb_eq in Hc as ->. intros H. by rewrite (IH _ H).
Qed.

Lemma child_name_Some (d path n : string) :
  child_name d path = Some n →
  path = d ++ "/" ++ n ∧ has_char "/" n = false ∧ PyStr.is_empty n = false.
Proof.
  unfold child_name.
  destruct (strip_prefix (d ++ "/") path) as [r|] eqn:Hr; [|done].
  destruct (PyStr.is_empty r) eqn:He; [done|].
  destruct (has_char "/" r) eqn:Hc; [done|]. simpl. intros [= <-].
  apply strip_prefix_Some in Hr. subst path.
  split_and!; try done. clear. induction d as [|c d IH]; [done|].
  change (String c ((d ++ "/") ++ r) = String c (d ++ "/" ++ r)).
  by rewrite IH.
Qed.

Lemma child_name_students (n : string) :
  has_char "/" n = false → PyStr.is_empty n = false →
  child_name STUDENTS_DIR ("students/" ++ n) = Some n.
Proof.
  intros Hc He. unfold child_name.
  change (STUDENTS_DIR ++ "/") with "students/".
  by rewrite strip_prefix_app, He, Hc.
Qed.

(** The listing of the store: the names of its files, each once. *)
Lemma listdir_spec (m : gmap string file) (n : string) :
  n ∈ listdir m STUDENTS_DIR
  ↔ is_Some (m !! ("students/" ++ n))
    ∧ has_char "/" n = false ∧ PyStr.is_empty n = false.
Proof.
  unfold listdir. rewrite list_elem_of_omap. split.
  - intros ([k f] & Hin & Hch). apply elem_of_map_to_list in Hin.
    apply child_name_Some in Hch as (Hk & Hc & He). simpl in Hk.
    change (STUDENTS_DIR ++ "/" ++ n) with ("students/" ++ n) in Hk.
    subst k. eauto.
  - intros ([f Hf] & Hc & He). exists ("students/" ++ n, f). split.
    + by apply elem_of_map_to_list.
    + by apply child_name_students.
Qed.

Lemma NoDup_omap_inj {A B} (f : A → option B) (l : list A) :
  NoDup l →
  (∀ x y z, x ∈ l → y ∈ l → f x = Some z → f y = Some z → x = y) →
  NoDup (omap f l).
Proof.
  induction 1 as [|x l Hx Hl IH]; intros Hinj; [constructor|].
  simpl. destruct (f x) as [z|] eqn:Hfx.
  - constructor.
    + rewrite list_elem_of_omap. intros (y & Hy & Hfy).
      assert (x = y) as -> by (eapply Hinj; eauto; set_solver).
      done.
    + apply IH. intros a b c Ha Hb. apply Hinj; set_solver.
  - apply IH. intros a b c Ha Hb. apply Hinj; set_solver.
Qed.

Lemma listdir_NoDup (m : gmap string file) : NoDup (listdir m STUDENTS_DIR).
Proof.
  unfold listdir. apply NoDup_omap_inj; [apply NoDup_map_to_list|].
  intros [k1 f1] [k2 f2] n H1 H2 Hc1 Hc2.
  apply child_name_Some in Hc1 as (Hk1 & _). apply child_name_Some in Hc2 as (Hk2 & _).
  simpl in *. subst k1 k2.
  apply elem_of_map_to_list in H1, H2. congruence.
Qed.

(** One turn of the loop on a listed file that can be removed. *)
Lemma cleanup_file_run env name f w :
  (∀ p, remove_refused env p = false) →
  fs w !! ("students/" ++ name) = Some f →
  ∃ w', cleanup_file env name w = (Ok tt, w')
    ∧ (old_temp_file (now env) name f
       ∧ fs w' = delete ("students/" ++ name) (fs w)
       ∨ ¬ old_temp_file (now env) name f ∧ fs w' = fs w).
Proof.
  intros Hrem Hf. unfold cleanup_file, old_temp_file.
  destruct (PyStr.startswith "temp_" name) eqn:Hpre.
  2:{ eexists. split; [reflexivity|]. right. split; [|done]. by intros [? _]. }
  rewrite (temp_name_joined _ Hpre). munfold. wsimpl. rewrite Hf. wsimpl.
  destruct (mtime f <? now env - MAX_FILE_AGE_DAYS * 86400)%Z eqn:Hold; wsimpl.
  - apply Z.ltb_lt in Hold. rewrite Hrem. wsimpl. rewrite Hf.
    eexists. split; [reflexivity|]. wsimpl. left. by split_and!.
  - apply Z.ltb_ge in Hold.
    eexists. split; [reflexivity|]. wsimpl. right. split; [|done].
    intros [_ ?]. lia.
Qed.

Lemma cleanup_loop_complete env names w :
  (∀ p, remove_refused env p = false) →
  NoDup names →
  (∀ n, n ∈ names → is_Some (fs w !! ("students/" ++ n))) →
  ∃ w', for_each names (cleanup_file env) w = (Ok tt, w')
    ∧ ∀ n f, n ∈ names → fs w !! ("students/" ++ n) = Some f →
        old_temp_file (now env) n f → fs w' !! ("students/" ++ n) = None.
Proof.
  intros Hrem Hnd. revert w.
  induction Hnd as [|n0 l Hn0 Hnd IH]; intros w Hex.
  { eexists. split; [reflexivity|]. intros n f Hn. by apply elem_of_nil in Hn. }
  destruct (Hex n0) as [f0 Hf0]; [by left|].
  destruct (cleanup_file_run env n0 f0 w Hrem Hf0) as (w1 & Hrun1 & Hstep).
  assert (Hkeep : ∀ n, n ∈ l →
            fs w1 !! ("students/" ++ n) = fs w !! ("students/" ++ n)).
  { intros n Hn. destruct Hstep as [(_ & ->)|(_ & ->)]; [|done].
    apply lookup_delete_ne. intros Heq%string_app_inv_head. by subst. }
  destruct (IH w1) as (w' & Hrun & Hdone).
  { intros n Hn. rewrite Hkeep by done. apply Hex. by right. }
  exists w'. split.
  { simpl. unfold bind at 1. by rewrite Hrun1. }
  intros n f Hn Hf Hold. apply elem_of_cons in Hn as [->|Hn].
  - assert (f0 = f) as -> by congruence.
    destruct Hstep as [(_ & Hfs1)|(Hnot & _)]; [|done].
    destruct (cleanup_loop_frame env l w1) as (r & w'' & Hrun' & _ & _ & Hfr).
    rewrite Hrun in Hrun'. injection Hrun' as _ <-.
    destruct (Hfr ("students/" ++ n0)) as [Heq|[? _]]; [|done].
    rewrite Heq, Hfs1. apply lookup_delete_eq.
  - apply (Hdone n f); try done. by rewrite Hkeep.
Qed.

(** When no removal is refused, the sweep removes every old temporary
    file of the store. *)
Lemma cleanup_old_files_complete env w :
  (∀ p, remove_refused env p = false) →
  ∃ w', cleanup_old_files env w = (Ok tt, w')
    ∧ ∀ name f, has_char "/" name = false →
        fs w !! ("students/" ++ name) = Some f →
        old_temp_file (now env) name f →
        fs w' !! ("students/" ++ name) = None.
Proof.
  intros Hrem.
  unfold cleanup_old_files, os_listdir, try_catch, bind at 1 2, emit.
  destruct (cleanup_loop_complete env (listdir (fs w) STUDENTS_DIR)
              (add_event (EvListdir STUDENTS_DIR) w) Hrem)
    as (w' & Hrun & Hdone).
  { apply listdir_NoDup. }
  { intros n Hn. wsimpl. by apply listdir_spec in Hn as [? _]. }
  wsimpl. rewrite Hrun. exists w'. split; [done|].
  intros name f Hc Hf Hold. apply (Hdone name f); try done.
  apply listdir_spec. split_and!; eauto.
  destruct Hold as [Hpre _]. by destruct name.
Qed.

(** X9.  When the operating system refuses no removal, the sweep is
    complete: a file of the store with a [temp_] name that is still there
    afterwards is unchanged and not older than thirty days. *)
Theorem X9_cleanup_removes_every_old_temp_file env w :
  (∀ p, remove_refused env p = false) →
  ∃ w',
    cleanup_old_files env w = (Ok tt, w')
    ∧ ∀ name f, has_char "/" name = false →
        PyStr.startswith "temp_" name = true →
        fs w' !! ("students/" ++ name) = Some f →
        fs w !! ("students/" ++ name) = Some f
        ∧ (now env - 2592000 ≤ mtime f)%Z.
Proof.
  intros Hrem.
  destruct (cleanup_old_files_complete env w Hrem) as (w' & Hrun & Hdone).
  exists w'. split; [exact Hrun|]. intros name f Hc Hpre Hf'.
  destruct (cleanup_old_files_frame env w) as (w'' & Hrun' & _ & _ & Hframe).
  rewrite Hrun in Hrun'. injection Hrun' as <-.
  destruct (Hframe ("students/" ++ name)) as [Heq|[Hbad _]]; [|congruence].
  rewrite Heq in Hf'. split; [exact Hf'|].
  destruct (Z.lt_ge_cases (mtime f) (now env - 2592000)) as [Hlt|]; [|done].
  rewrite (Hdone name f Hc Hf') in Heq; [congruence|].
  split; [exact Hpre | exact Hlt].
Qed.

Lemma X9_cleanup_removes_every_old_temp_file_witness :
  ∃ w',
    cleanup_old_files (demo_env 5000000)
      (world_of {["students/temp_x.jpg" := File "" 0]}) = (Ok tt, w')
    ∧ fs w' !! "students/temp_x.jpg" = None.
Proof.
  destruct (X9_cleanup_removes_every_old_temp_file (demo_env 5000000)
              (world_of {["students/temp_x.jpg" := File "" 0]}))
    as (w' & Hrun & Hleft); [reflexivity|].
  exists w'. split; [exact Hrun|].
  destruct (fs w' !! "students/temp_x.jpg") as [f|] eqn:Hf; [|reflexivity].
  destruct (Hleft "temp_x.jpg" f) as [Hold Hage];
    [reflexivity | reflexivity | exact Hf |].
  exfalso. vm_compute in Hold. injection Hold as <-.
  vm_compute in Hage. by apply Hage.
Defined.

(** X10.  [home] always renders [index.html], whatever the sweep runs
    into; it keeps the session and the flashes, and the only change to
    the file system is that files disappear. *)
Theorem X10_home_always_renders env w :
  ∃ w',
    home env w = (Ok (Render "index.html" []), w')
    ∧ session w' = session w ∧ flashes w' = flashes w
    ∧ ∀ p, fs w' !! p = fs w !! p ∨ fs w' !! p = None.
Proof.
  destruct (cleanup_old_files_frame env w) as (w' & Hrun & Hs & Hf & Hframe).
  exists w'. unfold home, bind, ret. rewrite Hrun. split_and!; try done.
  intros p. destruct (Hframe p) as [?|[? _]]; auto.
Qed.

Lemma startswith_app (p s : string) : PyStr.startswith p (p ++ s) = true.
Proof.
  unfold PyStr.startswith. induction p as [|a p IH]; [by destruct s|].
  change (String.prefix (String a p) (String a (p ++ s)) = true).
  cbn [String.prefix]. by destruct (Ascii.ascii_dec a a).
Qed.

Lemma temp_path_name (email rnd : string) :
  temp_path email rnd
  = "students/" ++ ("temp_" ++ sanitize_email email ++ "_" ++ PyStr.hex rnd
                     ++ ".jpg").
Proof. reflexivity. Qed.

(** X11.  A temporary file left behind by a submission is removed
    when the home page is loaded more than thirty days later (if no
    removal is refused). *)
Theorem X11_home_sweeps_expired_temp_file env w email rnd f :
  let temp := temp_path email rnd in
  (∀ p, remove_refused env p = false) →
  nested_in_store temp = false →
  fs w !! temp = Some f →
  (mtime f < now env - 2592000)%Z →
  ∃ w', home env w = (Ok (Render "index.html" []), w')
        ∧ fs w' !! temp = None.
Proof.
  intros temp Hrem Hnest Hf Hold. subst temp.
  destruct (cleanup_old_files_complete env w Hrem) as (w' & Hrun & Hdone).
  exists w'. unfold home, bind, ret. rewrite Hrun. split; [done|].
  rewrite temp_path_name in *.
  rewrite nested_in_store_child in Hnest.
  apply (Hdone _ f Hnest Hf). split; [|exact Hold].
  apply startswith_app.
Qed.

Lemma X11_home_sweeps_expired_temp_file_witness :
  ∃ w', home (demo_env 5000000)
          (submit (demo_env 2000) (form_of "login" "a@b.c" "data:x,zzz")
             (world_of ∅)).2
        = (Ok (Render "index.html" []), w')
        ∧ fs w' !! temp_path "a@b.c" "abcd" = None.
Proof.
  apply (X11_home_sweeps_expired_temp_file (demo_env 5000000) _ "a@b.c"
           "abcd" (File "" 2000)); try reflexivity.
Defined.

(** ** What [submit] does to the file system *)

Lemma submit_fs_frame env form w :
  let email := form_email form in
  let temp := temp_path email (urandom4 env) in
  let reg := registered_path email in
  let w' := (submit env form w).2 in
  (∀ p, p ≠ temp → p ≠ reg → fs w' !! p = fs w !! p)
  ∧ (∀ f, fs w !! reg = Some f → fs w' !! reg = Some f)
  ∧ (form !! "mode" ≠ Some "register" → fs w' !! reg = fs w !! reg).
Proof.
  intros email temp reg. cbv zeta.
  assert (Hne : reg ≠ temp) by (symmetry; apply temp_neq_registered).
  destruct (missing_fields form) eqn:Hmf.
  { rewrite submit_missing by done. wsimpl. by split_and!. }
  destruct (save_base64_image env (upload form) temp w) as [[[]|e] w1] eqn:Hs.
  2:{ rewrite (submit_undecodable _ _ _ _ _ Hmf Hs). wsimpl.
      destruct (save_base64_image_raise _ _ _ _ _ _ Hs)
        as (_ & _ & _ & Hframe & _).
      split_and!.
      - intros p Hp _. by apply Hframe.
      - intros f Hf. by rewrite Hframe.
      - intros _. by apply Hframe. }
  rewrite (submit_after_save _ _ _ _ Hmf Hs). unfold finally.
  fold email. fold temp. fold reg.
  destruct (save_base64_image_ok _ _ _ _ _ Hs)
    as (header & enc & data & _ & _ & _ & Hfs & _).
  assert (H1 : ∀ p, p ≠ temp → fs w1 !! p = fs w !! p).
  { intros p Hp. rewrite Hfs. by apply lookup_insert_ne. }
  destruct (submit_try_spec env (default "" (form !! "mode")) email reg temp w1)
    as (resp & w2 & m & c & tr & -> & _ & _ & Hcases).
  destruct (cleanup_temp_spec env temp w2)
    as (w3 & -> & _ & _ & _ & _ & H3 & _).
  wsimpl.
  destruct Hcases as
    [(Hm & _ & _ & _ & _ & _ & _ & Hnone & f & Hf & Hfs2)
    |[(_ & _ & _ & _ & _ & _ & _ & _ & Hfs2 & _)
     |(_ & _ & _ & Hfs2 & _)]].
  - rewrite H1 in Hnone by done. split_and!.
    + intros p Hp Hp'. rewrite H3, Hfs2 by done.
      rewrite lookup_insert_ne, lookup_delete_ne by done. by apply H1.
    + intros f0 Hf0. congruence.
    + intros Hmode. destruct (form !! "mode") as [md|]; simpl in Hm;
        [congruence|discriminate].
  - split_and!.
    + intros p Hp _. rewrite H3, Hfs2 by done. by apply H1.
    + intros f Hf. by rewrite H3, Hfs2, H1.
    + intros _. by rewrite H3, Hfs2, H1.
  - split_and!.
    + intros p Hp _. rewrite H3, Hfs2 by done. by apply H1.
    + intros f Hf. by rewrite H3, Hfs2, H1.
    + intros _. by rewrite H3, Hfs2, H1.
Qed.

(** X12.  The footprint of [submit] on the file system: every path
    other than the temporary path and the reference path of the submitted
    email keeps its file; the reference of the submitted email, when it
    exists, is neither overwritten nor removed; and a submission that is
    not a registration leaves the reference path of the submitted email
    as it is.  The reference of another email is covered by the first
    part only, as a path that differs from the temporary path. *)
Theorem X12_submit_touches_two_paths env form w r w' :
  let email := form_email form in
  let temp := temp_path email (urandom4 env) in
  let reg := registered_path email in
  submit env form w = (r, w') →
  (∀ p, p ≠ temp → p ≠ reg → fs w' !! p = fs w !! p)
  ∧ (∀ f, fs w !! reg = Some f → fs w' !! reg = Some f)
  ∧ (form !! "mode" ≠ Some "register" → fs w' !! reg = fs w !! reg).
Proof.
  intros email temp reg Hrun.
  pose proof (submit_fs_frame env form w) as H.
  cbv zeta in H. by rewrite Hrun in H.
Qed.

Lemma X12_submit_touches_two_paths_witness :
  ∃ w', submit (demo_env 2000) (form_of "register" "x@y.z" image_hello)
          (enrolled "a@b.c" 1000) = (Ok (Redirect EpDashboard), w')
        ∧ fs w' !! "students/a_at_b_c.jpg" = Some (File "hello" 1000).
Proof.
  exists (submit (demo_env 2000) (form_of "register" "x@y.z" image_hello)
            (enrolled "a@b.c" 1000)).2.
  split; [vm_compute; reflexivity|].
  destruct (X12_submit_touches_two_paths (demo_env 2000)
              (form_of "register" "x@y.z" image_hello) (enrolled "a@b.c" 1000)
              (Ok (Redirect EpDashboard))
              (submit (demo_env 2000) (form_of "register" "x@y.z" image_hello)
                 (enrolled "a@b.c" 1000)).2) as (Hframe & _);
    [vm_compute; reflexivity|].
  rewrite Hframe; [vm_compute; reflexivity | vm_compute; discriminate ..].
Defined.

(** The temporary path is not kept apart from the references: the name
    [temp_a_61626364] is also the sanitized name of the email of that
    spelling.  A login for [a] that draws the random bytes [abcd] writes
    its upload over the reference of that email, and the [finally] block
    removes it. *)
Example submit_removes_colliding_reference :
  let w := enrolled "temp_a_61626364" 1000 in
  let p := "students/temp_a_61626364.jpg" in
  registered_path "temp_a_61626364" = p
  ∧ temp_path "a" (urandom4 (demo_env 2000)) = p
  ∧ fs w !! p = Some (File "hello" 1000)
  ∧ fs (submit (demo_env 2000) (form_of "login" "a" image_hello) w).2 !! p
    = None.
Proof. vm_compute. split_and!; reflexivity. Qed.

(** ** After a successful submission *)

Lemma missing_fields_email (form : gmap string string) :
  missing_fields form = false → PyStr.is_empty (form_email form) = false.
Proof.
  unfold missing_fields. intros H.
  by apply orb_false_iff in H as [[? _]%orb_false_iff _].
Qed.

Lemma check_email_registered form w f :
  PyStr.is_empty (form_email form) = false →
  fs w !! registered_path (form_email form) = Some f →
  check_email form w
  = (Ok (Json [("registered", PBool true)] 200),
     add_event (EvExists (registered_path (form_email form))) w).
Proof.
  intros He Hf. unfold check_email. rewrite He. munfold. wsimpl.
  rewrite Hf, bool_decide_eq_true_2 by eauto. reflexivity.
Qed.

Lemma dashboard_logged_in email s w :
  session w = logged_in_session email s →
  dashboard w = (Ok (Render "dashboard.html" [("email", PStr email)]), w).
Proof.
  intros Hs. unfold dashboard. munfold. rewrite Hs. unfold logged_in_session.
  rewrite lookup_insert_eq. cbn [default from_option id truthy negb].
  rewrite Hs. unfold logged_in_session.
  rewrite lookup_insert_ne by done. rewrite lookup_insert_eq. reflexivity.
Qed.

(** X13.  After a submission that was redirected to the dashboard,
    [dashboard] renders [dashboard.html] with the normalised email, the
    reference file of that email exists, and [check_email] reports the
    email as registered. *)
Theorem X13_dashboard_after_success env form w w' :
  let email := form_email form in
  let reg := registered_path email in
  submit env form w = (Ok (Redirect EpDashboard), w') →
  dashboard w'
  = (Ok (Render "dashboard.html" [("email", PStr email)]), w')
  ∧ is_Some (fs w' !! reg)
  ∧ check_email form w'
    = (Ok (Json [("registered", PBool true)] 200),
       add_event (EvExists reg) w').
Proof.
  intros email reg Hrun. subst email reg.
  pose proof (submit_fs_frame env form w) as (_ & Hkeep & _).
  rewrite Hrun in Hkeep. wsimpl.
  destruct (submit_spec env form w)
    as (resp & w0 & m & c & tr & Hrun' & _ & _ & Hcases).
  rewrite Hrun in Hrun'. injection Hrun' as <- <-.
  destruct Hcases as [(_ & Hbad & _)|(w1 & enc & Hmf & Hs & _ & Hcases)];
    [discriminate|].
  cbv zeta in Hcases.
  assert (Hreg : is_Some (fs w' !! registered_path (form_email form))
                 ∧ session w'
                   = logged_in_session (form_email form) (session w)).
  { destruct Hcases as
      [(_ & _ & _ & _ & Hsess & _ & _ & _ & _ & Hreg)
      |[(_ & _ & _ & _ & Hsess & _ & _ & [f Hf] & _)
       |(_ & Hbad & _)]]; [| |discriminate].
    - split; [|done]. rewrite Hreg.
      destruct (save_base64_image_ok _ _ _ _ _ Hs)
        as (header & enc' & data & _ & _ & _ & Hfs & _).
      rewrite Hfs, lookup_insert_eq. eauto.
    - split; [|done]. rewrite (Hkeep f Hf). eauto. }
  destruct Hreg as [[f Hf] Hsess].
  split_and!.
  - by apply (dashboard_logged_in _ (session w)).
  - eauto.
  - apply (check_email_registered form w' f); [|done].
    by apply missing_fields_email.
Qed.

Lemma X13_dashboard_after_success_witness :
  let w' := (submit (demo_env 1000) (form_of "register" " A@B.c " image_hello)
               (world_of ∅)).2 in
  dashboard w' = (Ok (Render "dashboard.html" [("email", PStr "a@b.c")]), w')
  ∧ is_Some (fs w' !! "students/a_at_b_c.jpg").
Proof.
  intros w'.
  destruct (X13_dashboard_after_success (demo_env 1000)
              (form_of "register" " A@B.c " image_hello) (world_of ∅) w')
    as (Hdash & Hreg & _); [vm_compute; reflexivity|].
  split; [exact Hdash | exact Hreg].
Defined.

(** ** The face count *)

(** X14.  [single_face_present] never raises.  It returns [True]
    exactly when the detector returned one face; it calls the detector
    once, logs an error exactly when the detector raised, and changes
    neither the file system nor the session nor the flashes. *)
Theorem X14_single_face_present_total env p w :
  ∃ b w',
    single_face_present env p w = (Ok b, w')
    ∧ (b = true ↔ extract_faces env (fs w) p = Ok 1%nat)
    ∧ fs w' = fs w ∧ session w' = session w ∧ flashes w' = flashes w
    ∧ trace w' = (trace w ++ [EvExtractFaces p])%list
    ∧ match extract_faces env (fs w) p with
      | Ok _ => logs w' = logs w
      | Raise e =>
          logs w' = (logs w ++ [(LvlError, MsgFaceDetectionError e)])%list
      end.
Proof.
  unfold single_face_present. munfold. wsimpl.
  destruct (extract_faces env (fs w) p) as [n|e] eqn:Hf.
  - eexists _, _. split; [reflexivity|]. wsimpl. split_and!; try done.
    rewrite Nat.eqb_eq. split; [by intros ->|by intros [= ->]].
  - eexists _, _. split; [reflexivity|]. wsimpl. by split_and!.
Qed.

(** X15.  A picture with no face or with several faces is rejected in
    both modes before the reference is looked up: the submission is
    redirected home with the face-count error, nothing is logged, the
    session and the reference path are as before, and the only calls
    after the upload was saved are the detector and the removal of the
    temporary file. *)
Theorem X15_wrong_face_count_rejected env form w w1 n :
  let email := form_email form in
  let temp := temp_path email (urandom4 env) in
  let reg := registered_path email in
  missing_fields form = false →
  save_base64_image env (upload form) temp w = (Ok tt, w1) →
  extract_faces env (fs w1) temp = Ok n →
  n ≠ 1%nat →
  ∃ w', submit env form w = (Ok (Redirect EpHome), w')
        ∧ flashes w' = (flashes w ++ [(MsgNoFace, CatError)])%list
        ∧ session w' = session w
        ∧ logs w' = logs w
        ∧ trace w'
          = (trace w1 ++ [EvExtractFaces temp; EvExists temp; EvRemove temp])%list
        ∧ fs w' !! reg = fs w !! reg
        ∧ (remove_refused env temp = false → fs w' = delete temp (fs w)).
Proof.
  intros email temp reg Hmf Hsave Hface Hn. subst email temp reg.
  destruct (save_base64_image_ok _ _ _ _ _ Hsave)
    as (header & enc & data & _ & _ & _ & Hfs & Hsess & Hfl & Hlog & _).
  assert (Htemp1 : fs w1 !! temp_path (form_email form) (urandom4 env)
                   = Some (File data (now env))).
  { rewrite Hfs. apply lookup_insert_eq. }
  assert (Hreg1 : fs w1 !! registered_path (form_email form)
                  = fs w !! registered_path (form_email form)).
  { rewrite Hfs. apply lookup_insert_ne, temp_neq_registered. }
  rewrite (submit_after_save _ _ _ _ Hmf Hsave).
  rewrite <- Hsess, <- Hfl, <- Hlog, <- Hreg1.
  unfold finally, submit_try, single_face_present. munfold. wsimpl.
  rewrite Hface. apply Nat.eqb_neq in Hn. rewrite Hn. cbn [negb]. wsimpl.
  rewrite Htemp1, bool_decide_eq_true_2 by eauto.
  destruct (remove_refused env _) eqn:Href; wsimpl; rewrite ?Htemp1;
    eexists; (split; [reflexivity|]); wsimpl; rewrite <- ?app_assoc;
    split_and!; try done.
  - rewrite lookup_delete_ne; [done|]. apply temp_neq_registered.
  - intros _. by rewrite Hfs, delete_insert_eq.
Qed.

Lemma X15_wrong_face_count_rejected_witness :
  ∃ w', submit (crowd_env 2000) (form_of "register" "a@b.c" image_hello)
          (world_of ∅) = (Ok (Redirect EpHome), w')
        ∧ flashes w' = [(MsgNoFace, CatError)]
        ∧ fs w' = ∅.
Proof.
  destruct (X15_wrong_face_count_rejected (crowd_env 2000)
              (form_of "register" "a@b.c" image_hello) (world_of ∅)
              (save_base64_image (crowd_env 2000) image_hello
                 "students/temp_a_at_b_c_61626364.jpg" (world_of ∅)).2
              2%nat)
    as (w' & Hrun & Hfl & _ & _ & _ & _ & Hfs);
    try (vm_compute; reflexivity); [lia|].
  exists w'. split; [exact Hrun|]. split; [exact Hfl|].
  rewrite Hfs by reflexivity. reflexivity.
Defined.

(** X16.  A registration whose upload was saved and in which the
    detector finds exactly one face, for an email that has a reference,
    is rejected: redirected home with the already-registered notice,
    session unchanged, the reference kept as it was, [os.replace] never
    called, and the temporary file removed.  (A picture that fails the
    face count is rejected earlier, with the face-count error.) *)
Theorem X16_second_registration_rejected env form w w1 f :
  let email := form_email form in
  let temp := temp_path email (urandom4 env) in
  let reg := registered_path email in
  form !! "mode" = Some "register" →
  missing_fields form = false →
  save_base64_image env (upload form) temp w = (Ok tt, w1) →
  extract_faces env (fs w1) temp = Ok 1%nat →
  fs w !! reg = Some f →
  ∃ w', submit env form w = (Ok (Redirect EpHome), w')
        ∧ flashes w' = (flashes w ++ [(MsgAlreadyRegistered, CatInfo)])%list
        ∧ session w' = session w
        ∧ fs w' !! reg = Some f
        ∧ trace w'
          = (trace w1 ++ [EvExtractFaces temp; EvExists reg; EvExists temp;
                          EvRemove temp])%list
        ∧ (remove_refused env temp = false → fs w' = delete temp (fs w)).
Proof.
  intros email temp reg Hmode Hmf Hsave Hface Href. subst email temp reg.
  destruct (save_base64_image_ok _ _ _ _ _ Hsave)
    as (header & enc & data & _ & _ & _ & Hfs & Hsess & Hfl & Hlog & _).
  assert (Htemp1 : fs w1 !! temp_path (form_email form) (urandom4 env)
                   = Some (File data (now env))).
  { rewrite Hfs. apply lookup_insert_eq. }
  assert (Hreg1 : fs w1 !! registered_path (form_email form) = Some f).
  { rewrite Hfs, lookup_insert_ne; [done | apply temp_neq_registered]. }
  rewrite (submit_after_save _ _ _ _ Hmf Hsave).
  rewrite <- Hsess, <- Hfl. rewrite Hmode.
  change (default "" (Some "register")) with "register".
  unfold finally, submit_try, single_face_present. munfold. wsimpl.
  rewrite Hface. cbn [Nat.eqb negb]. wsimpl.
  change (String.eqb "register" "register") with true. wsimpl.
  rewrite Hreg1, bool_decide_eq_true_2 by eauto. wsimpl.
  rewrite Htemp1, bool_decide_eq_true_2 by eauto.
  destruct (remove_refused env _) eqn:Hrem; wsimpl; rewrite ?Htemp1;
    eexists; (split; [reflexivity|]); wsimpl; rewrite <- ?app_assoc;
    split_and!; try done.
  - rewrite lookup_delete_ne; [done|]. apply temp_neq_registered.
  - intros _. by rewrite Hfs, delete_insert_eq.
Qed.

Lemma X16_second_registration_rejected_witness :
  ∃ w', submit (demo_env 2000) (form_of "register" "a@b.c" image_hello)
          (enrolled "a@b.c" 1000) = (Ok (Redirect EpHome), w')
        ∧ fs w' !! "students/a_at_b_c.jpg" = Some (File "hello" 1000).
Proof.
  destruct (X16_second_registration_rejected (demo_env 2000)
              (form_of "register" "a@b.c" image_hello) (enrolled "a@b.c" 1000)
              (save_base64_image (demo_env 2000) image_hello
                 "students/temp_a_at_b_c_61626364.jpg"
                 (enrolled "a@b.c" 1000)).2
              (File "hello" 1000))
    as (w' & Hrun & _ & _ & Hreg & _); try (vm_compute; reflexivity).
  exists w'. split; [exact Hrun | exact Hreg].
Defined.

(** ** The similarity shown after a failed login *)

(** X17.  The similarity shown after a failed login,
    [max(0, (1 - distance) * 100)]: it is never negative, at most 100 for
    a distance that is not negative, zero from distance 1 on, equal to
    [(1 - distance) * 100] up to distance 1, and it does not grow with
    the distance. *)
Theorem X17_similarity_range (d : Q) :
  (0 <= similarity d)%Q
  ∧ ((0 <= d)%Q → (similarity d <= 100)%Q)
  ∧ ((1 <= d)%Q → (similarity d == 0)%Q)
  ∧ ((d <= 1)%Q → (similarity d == (1 - d) * 100)%Q)
  ∧ ∀ d', (d <= d')%Q → (similarity d' <= similarity d)%Q.
Proof.
  assert (Hcase : ∀ x, ((1 - x) * 100 <= 0 ∧ similarity x = 0
                        ∨ 0 < (1 - x) * 100
                          ∧ similarity x = (1 - x) * 100)%Q).
  { intros x. unfold similarity. cbv zeta.
    destruct (Qle_bool ((1 - x) * 100) 0) eqn:E.
    - apply Qle_bool_iff in E. by left.
    - right. split; [|done]. apply Qnot_le_lt. intros Hle.
      apply Qle_bool_iff in Hle. congruence. }
  split_and!.
  - destruct (Hcase d) as [[_ ->]|[? ->]]; lra.
  - intros Hd. destruct (Hcase d) as [[_ ->]|[? ->]]; lra.
  - intros Hd. destruct (Hcase d) as [[_ ->]|[? ->]]; lra.
  - intros Hd. destruct (Hcase d) as [[? ->]|[? ->]]; [|reflexivity].
    apply Qle_antisym; lra.
  - intros d' Hd.
    destruct (Hcase d) as [[? ->]|[? ->]], (Hcase d') as [[? ->]|[? ->]]; lra.
Qed.

(** ** The random suffix of the temporary file *)

Lemma hex_digit_inj (m n : N) :
  (m < 16)%N → (n < 16)%N →
  PyStr.hex_digit m = PyStr.hex_digit n → m = n.
Proof.
  intros Hm Hn H. apply (f_equal N_of_ascii) in H. unfold PyStr.hex_digit in H.
  destruct (m <? 10)%N eqn:Em, (n <? 10)%N eqn:En;
    rewrite !N_ascii_embedding in H by lia;
    try apply N.ltb_lt in Em; try apply N.ltb_lt in En;
    try apply N.ltb_ge in Em; try apply N.ltb_ge in En; lia.
Qed.

Lemma hex_inj (b1 b2 : string) : PyStr.hex b1 = PyStr.hex b2 → b1 = b2.
Proof.
  revert b2. induction b1 as [|c1 b1 IH]; intros [|c2 b2]; simpl; try done.
  intros [= Hhi Hlo Hrest].
  pose proof (N_ascii_bounded c1) as B1. pose proof (N_ascii_bounded c2) as B2.
  apply hex_digit_inj in Hhi;
    [|apply N.Div0.div_lt_upper_bound; lia
     |apply N.Div0.div_lt_upper_bound; lia].
  apply hex_digit_inj in Hlo; [|by apply N.mod_lt|by apply N.mod_lt].
  f_equal; [|by apply IH].
  rewrite <- (ascii_N_embedding c1), <- (ascii_N_embedding c2). f_equal.
  rewrite (N.div_mod (N_of_ascii c1) 16), (N.div_mod (N_of_ascii c2) 16) by done.
  by rewrite Hhi, Hlo.
Qed.

Lemma string_app_inv_tail (a b s : string) : a ++ s = b ++ s → a = b.
Proof.
  revert b. induction a as [|c a IH]; intros [|d b] H.
  - done.
  - change (s = String d b ++ s) in H. apply (f_equal String.length) in H.
    rewrite string_length_app in H. simpl in H. lia.
  - change (String c a ++ s = s) in H. apply (f_equal String.length) in H.
    rewrite string_length_app in H. simpl in H. lia.
  - change (String c (a ++ s) = String d (b ++ s)) in H.
    injection H as -> H. f_equal. by apply IH.
Qed.

Lemma hex_length (b : string) :
  String.length (PyStr.hex b) = (2 * String.length b)%nat.
Proof. induction b as [|c b IH]; simpl; [done|]. rewrite IH. lia. Qed.

(** X18.  [bytes.hex] is injective and doubles the length, so two
    submissions for the same email use the same temporary path only if
    they drew the same random bytes. *)
Theorem X18_temp_path_random_suffix (email r1 r2 : string) :
  (PyStr.hex r1 = PyStr.hex r2 ↔ r1 = r2)
  ∧ (temp_path email r1 = temp_path email r2 ↔ r1 = r2)
  ∧ String.length (PyStr.hex r1) = (2 * String.length r1)%nat.
Proof.
  split_and!.
  - split; [apply hex_inj | by intros ->].
  - split; [|by intros ->].
    rewrite !temp_path_name. intros H.
    do 4 apply string_app_inv_head in H.
    by apply hex_inj, (string_app_inv_tail _ _ ".jpg").
  - apply hex_length.
Qed.

(** ** The calls a submission makes *)

Lemma new_events_app (w w' : World) (tr : list event) :
  trace w' = (trace w ++ tr)%list → new_events w w' = tr.
Proof. intros H. unfold new_events. rewrite H. apply drop_app_length. Qed.

Lemma submit_try_events env mode email reg temp w :
  ∃ tr,
    trace (submit_try env mode email reg temp w).2
    = (trace w ++ EvExtractFaces temp :: tr)%list
    ∧ (tr = [] ∨ tr = [EvExists reg]
       ∨ mode = "register"
         ∧ (tr = [EvExists reg; EvReplace temp reg]
            ∨ tr = ([EvExists reg; EvReplace temp reg]
                      ++ session_events email)%list)
       ∨ mode ≠ "register"
         ∧ (tr = [EvExists reg; EvVerify temp reg]
            ∨ tr = ([EvExists reg; EvVerify temp reg]
                      ++ session_events email)%list)).
Proof.
  unfold submit_try, single_face_present. munfold.
  repeat mstep; simplify_eq; wsimpl.
  all: rewrite <- ?app_assoc; simpl.
  all: eexists; split; [reflexivity|].
  all: breflect.
  all: auto 8.
Qed.

Ltac elem_inv :=
  repeat match goal with
    | H : _ ∈ (_ ++ _)%list |- _ => apply elem_of_app in H as [H|H]
    | H : _ ∈ _ :: _ |- _ => apply elem_of_cons in H as [H|H]
    | H : _ ∈ [] |- _ => by apply elem_of_nil in H
    | H : _ ∈ session_events _ |- _ => unfold session_events in H
    | H : _ ∨ _ |- _ => destruct H as [H|H]
    | H : @eq event _ _ |- _ => discriminate H
    | H : @eq event _ _ |- _ => injection H as -> ->
    | H : @eq event _ _ |- _ => injection H as ->
    end.

Lemma submit_events env form w :
  let email := form_email form in
  let temp := temp_path email (urandom4 env) in
  let reg := registered_path email in
  ∃ tr,
    trace (submit env form w).2 = (trace w ++ tr)%list
    ∧ (tr = [] ∨ tr = [EvOpenWb temp]
       ∨ (∃ enc, tr = [EvOpenWb temp; EvB64Decode enc])
       ∨ ∃ enc mid fin,
           tr = ([EvOpenWb temp; EvB64Decode enc; EvWrite temp;
                  EvExtractFaces temp] ++ mid ++ EvExists temp :: fin)%list
           ∧ (fin = [] ∨ fin = [EvRemove temp])
           ∧ (mid = [] ∨ mid = [EvExists reg]
              ∨ form !! "mode" = Some "register"
                ∧ (mid = [EvExists reg; EvReplace temp reg]
                   ∨ mid = ([EvExists reg; EvReplace temp reg]
                              ++ session_events email)%list)
              ∨ form !! "mode" = Some "login"
                ∧ (mid = [EvExists reg; EvVerify temp reg]
                   ∨ mid = ([EvExists reg; EvVerify temp reg]
                              ++ session_events email)%list))).
Proof.
  intros email temp reg.
  destruct (missing_fields form) eqn:Hmf.
  { rewrite submit_missing by done. exists []. wsimpl.
    rewrite app_nil_r. auto. }
  destruct (save_base64_image env (upload form) temp w) as [[[]|e] w1] eqn:Hs.
  2:{ rewrite (submit_undecodable _ _ _ _ _ Hmf Hs). wsimpl.
      destruct (save_base64_image_raise _ _ _ _ _ _ Hs)
        as (_ & _ & _ & _ & tr & Htr & Hshape).
      exists tr. split; [done|]. tauto. }
  rewrite (submit_after_save _ _ _ _ Hmf Hs). unfold finally.
  fold email. fold temp. fold reg.
  destruct (save_base64_image_ok _ _ _ _ _ Hs)
    as (header & enc & data & _ & _ & _ & _ & _ & _ & _ & Htr1).
  assert (Hmode : bad_mode (form !! "mode") = false).
  { unfold missing_fields in Hmf.
    by apply orb_false_iff in Hmf as [[_ ?]%orb_false_iff _]. }
  destruct (submit_try_events env (default "" (form !! "mode")) email reg temp
              w1) as (mid & Htr2 & Hmid).
  destruct (submit_try env (default "" (form !! "mode")) email reg temp w1)
    as [r w2]. wsimpl.
  destruct (cleanup_temp_spec env temp w2)
    as (w3 & -> & _ & _ & _ & _ & _ & Hclean). wsimpl.
  assert (Hfin : ∃ fin, trace w3 = (trace w2 ++ EvExists temp :: fin)%list
                        ∧ (fin = [] ∨ fin = [EvRemove temp])).
  { destruct Hclean as [(-> & _)|(-> & _)]; eexists; eauto. }
  destruct Hfin as (fin & -> & Hfin).
  rewrite Htr2, Htr1, <- !app_assoc. eexists. split; [reflexivity|].
  right; right; right. exists enc, mid, fin. split; [reflexivity|].
  split; [done|].
  destruct (mode_cases _ Hmode) as [Hm|Hm]; rewrite Hm in Hmid |- *;
    cbn [default from_option id] in Hmid.
  - destruct Hmid as [?|[?|[[_ ?]|[Hbad _]]]]; [auto|auto| |done].
    right; right; left. by split.
  - destruct Hmid as [?|[?|[[Hbad _]|[_ ?]]]]; [auto|auto|discriminate|].
    right; right; right. by split.
Qed.

(** X19.  The calls of a submission.  The verifier is called only in
    a login, [os.replace] only in a registration, and both only on the
    temporary path and the reference path of the submitted email; the
    only path that is opened, written, shown to the detector or removed
    is the temporary path; the session is never cleared. *)
Theorem X19_calls_of_a_submission env form w :
  let email := form_email form in
  let temp := temp_path email (urandom4 env) in
  let reg := registered_path email in
  let evs := new_events w (submit env form w).2 in
  (∀ a b, EvVerify a b ∈ evs →
     form !! "mode" = Some "login" ∧ a = temp ∧ b = reg)
  ∧ (∀ a b, EvReplace a b ∈ evs →
       form !! "mode" = Some "register" ∧ a = temp ∧ b = reg)
  ∧ (∀ p, EvRemove p ∈ evs → p = temp)
  ∧ (∀ p, EvOpenWb p ∈ evs ∨ EvWrite p ∈ evs → p = temp)
  ∧ (∀ p, EvExtractFaces p ∈ evs → p = temp)
  ∧ EvSessionClear ∉ evs.
Proof.
  intros email temp reg evs. subst evs.
  destruct (submit_events env form w) as (tr & Htr & Hshape).
  fold email temp reg in Hshape.
  rewrite (new_events_app _ _ _ Htr).
  destruct Hshape as [->|[->|[(enc & ->)|(enc & mid & fin & -> & Hfin & Hmid)]]].
  1-3: split_and!; [intros a b H|intros a b H|intros p H|intros p H
                    |intros p H|intros H]; elem_inv; done.
  destruct Hfin as [->| ->];
    destruct Hmid as [->|[->|[[Hm [->| ->]]|[Hm [->| ->]]]]].
  all: split_and!; [intros a b H|intros a b H|intros p H|intros p H
                   |intros p H|intros H]; elem_inv; done.
Qed.

(** ** A removal that the operating system refuses *)

Lemma cleanup_file_step env name w :
  ∃ r w', cleanup_file env name w = (r, w')
    ∧ (fs w' = fs w
       ∨ remove_refused env ("students/" ++ name) = false
         ∧ fs w' = delete ("students/" ++ name) (fs w)).
Proof.
  unfold cleanup_file.
  destruct (PyStr.startswith "temp_" name) eqn:Hpre.
  2:{ eexists _, _. split; [reflexivity|]. auto. }
  rewrite (temp_name_joined _ Hpre). munfold. wsimpl.
  destruct (fs w !! ("students/" ++ name)) as [f|] eqn:Hf; wsimpl.
  2:{ eexists _, _. split; [reflexivity|]. wsimpl. auto. }
  destruct (mtime f <? now env - MAX_FILE_AGE_DAYS * 86400)%Z; wsimpl.
  2:{ eexists _, _. split; [reflexivity|]. wsimpl. auto. }
  destruct (remove_refused env _) eqn:Href; wsimpl.
  { eexists _, _. split; [reflexivity|]. wsimpl. auto. }
  rewrite Hf. eexists _, _. split; [reflexivity|]. wsimpl. auto.
Qed.

Lemma cleanup_loop_refused env names w p :
  remove_refused env p = true →
  fs (for_each names (cleanup_file env) w).2 !! p = fs w !! p.
Proof.
  intros Href. revert w. induction names as [|name names IH]; intros w.
  { reflexivity. }
  destruct (cleanup_file_step env name w) as (r1 & w1 & Hrun1 & Hstep).
  assert (H1 : fs w1 !! p = fs w !! p).
  { destruct Hstep as [->|[Hok ->]]; [done|].
    apply lookup_delete_ne. intros <-. congruence. }
  simpl. unfold bind at 1. rewrite Hrun1. destruct r1 as [[]|e].
  - by rewrite IH.
  - done.
Qed.

(** X20.  The sweep keeps a file whose removal the operating system
    refuses, and still returns normally. *)
Theorem X20_refused_removal_keeps_file env w p :
  remove_refused env p = true →
  ∃ w', cleanup_old_files env w = (Ok tt, w')
        ∧ fs w' !! p = fs w !! p.
Proof.
  intros Href.
  destruct (cleanup_old_files_frame env w) as (w' & Hrun & _).
  exists w'. split; [exact Hrun|].
  pose proof (cleanup_loop_refused env (listdir (fs w) STUDENTS_DIR)
                (add_event (EvListdir STUDENTS_DIR) w) p Href) as Hloop.
  revert Hrun. unfold cleanup_old_files, os_listdir, try_catch, bind at 1 2, emit.
  wsimpl.
  destruct (for_each _ _ _) as [[[]|e] w2]; wsimpl.
  - by intros [= <-].
  - unfold log. intros [= <-]. by wsimpl.
Qed.

Lemma X20_refused_removal_keeps_file_witness :
  ∃ w', cleanup_old_files (locking_env 5000000 "students/temp_a.jpg")
          (world_of {["students/temp_a.jpg" := File "" 0]}) = (Ok tt, w')
        ∧ fs w' !! "students/temp_a.jpg" = Some (File "" 0).
Proof.
  destruct (X20_refused_removal_keeps_file
              (locking_env 5000000 "students/temp_a.jpg")
              (world_of {["students/temp_a.jpg" := File "" 0]})
              "students/temp_a.jpg")
    as (w' & Hrun & Hkeep); [reflexivity|].
  exists w'. split; [exact Hrun|]. rewrite Hkeep. reflexivity.
Defined.

Lemma cleanup_file_kept env name f w :
  fs w !! ("students/" ++ name) = Some f →
  ¬ old_temp_file (now env) name f →
  ∃ w', cleanup_file env name w = (Ok tt, w')
        ∧ fs w' = fs w ∧ logs w' = logs w.
Proof.
  intros Hf Hnot. unfold cleanup_file.
  destruct (PyStr.startswith "temp_" name) eqn:Hpre.
  2:{ eexists. split; [reflexivity|]. auto. }
  rewrite (temp_name_joined _ Hpre). munfold. wsimpl. rewrite Hf. wsimpl.
  destruct (mtime f <? now env - MAX_FILE_AGE_DAYS * 86400)%Z eqn:Hold; wsimpl.
  { apply Z.ltb_lt in Hold. destruct Hnot. by split. }
  eexists. split; [reflexivity|]. wsimpl. auto.
Qed.

Lemma cleanup_file_refused env name f w :
  fs w !! ("students/" ++ name) = Some f →
  old_temp_file (now env) name f →
  remove_refused env ("students/" ++ name) = true →
  ∃ w', cleanup_file env name w = (Raise (OSError "Permission denied"), w')
        ∧ fs w' = fs w ∧ logs w' = logs w.
Proof.
  intros Hf [Hpre Hold] Href. unfold cleanup_file. rewrite Hpre.
  rewrite (temp_name_joined _ Hpre). munfold. wsimpl. rewrite Hf. wsimpl.
  apply Z.ltb_lt in Hold. rewrite Hold. wsimpl. rewrite Href. wsimpl.
  eexists. split; [reflexivity|]. wsimpl. auto.
Qed.

Lemma cleanup_loop_abort env pre name rest f w :
  (∀ n, n ∈ pre → ∃ f', fs w !! ("students/" ++ n) = Some f'
                        ∧ ¬ old_temp_file (now env) n f') →
  fs w !! ("students/" ++ name) = Some f →
  old_temp_file (now env) name f →
  remove_refused env ("students/" ++ name) = true →
  ∃ w', for_each (pre ++ name :: rest)%list (cleanup_file env) w
        = (Raise (OSError "Permission denied"), w')
        ∧ fs w' = fs w ∧ logs w' = logs w.
Proof.
  intros Hpre Hf Hold Href. revert w Hpre Hf.
  induction pre as [|n pre IH]; intros w Hpre Hf.
  - destruct (cleanup_file_refused env name f w Hf Hold Href)
      as (w' & Hrun & Hfs & Hlog).
    exists w'. simpl. unfold bind at 1. by rewrite Hrun.
  - destruct (Hpre n) as (f' & Hf' & Hnot); [by left|].
    destruct (cleanup_file_kept env n f' w Hf' Hnot) as (w1 & Hrun & Hfs & Hlog).
    destruct (IH w1) as (w' & Hrun' & Hfs' & Hlog').
    { intros n' Hn'. rewrite Hfs. apply Hpre. by right. }
    { by rewrite Hfs. }
    exists w'. simpl. unfold bind at 1. rewrite Hrun.
    split; [exact Hrun'|]. split; congruence.
Qed.

(** X21.  One refused removal ends the sweep: the [try] block of
    [cleanup_old_files] encloses the whole loop.  If the listing reaches
    an old temporary file whose removal is refused before any file that
    the sweep would remove, the error is logged and the file system stays
    as it was, old temporary files listed later included. *)
Theorem X21_refused_removal_stops_the_sweep env w pre name rest f :
  listdir (fs w) STUDENTS_DIR = (pre ++ name :: rest)%list →
  (∀ n f', n ∈ pre → fs w !! ("students/" ++ n) = Some f' →
           ¬ old_temp_file (now env) n f') →
  fs w !! ("students/" ++ name) = Some f →
  old_temp_file (now env) name f →
  remove_refused env ("students/" ++ name) = true →
  ∃ w', cleanup_old_files env w = (Ok tt, w')
        ∧ fs w' = fs w
        ∧ logs w'
          = (logs w
             ++ [(LvlError, MsgCleanupError (OSError "Permission denied"))])%list.
Proof.
  intros Hls Hpre Hf Hold Href.
  destruct (cleanup_loop_abort env pre name rest f
              (add_event (EvListdir STUDENTS_DIR) w))
    as (w1 & Hrun & Hfs & Hlog); try done.
  { intros n Hn. wsimpl.
    assert (Hin : n ∈ listdir (fs w) STUDENTS_DIR).
    { rewrite Hls. apply elem_of_app. by left. }
    apply listdir_spec in Hin as [[f' Hf'] _].
    exists f'. split; [done|]. by apply Hpre. }
  unfold cleanup_old_files, os_listdir, try_catch, bind at 1 2, emit.
  wsimpl. rewrite Hls, Hrun. unfold log.
  eexists. split; [reflexivity|]. wsimpl. by rewrite Hlog.
Qed.

Lemma X21_refused_removal_stops_the_sweep_witness :
  ∃ w', cleanup_old_files (locking_env 5000000 "students/temp_a.jpg")
          (world_of {["students/a.jpg" := File "hello" 4000000;
                      "students/temp_a.jpg" := File "" 0;
                      "students/temp_b.jpg" := File "" 0]}) = (Ok tt, w')
        ∧ fs w' !! "students/temp_b.jpg" = Some (File "" 0).
Proof.
  destruct (X21_refused_removal_stops_the_sweep
              (locking_env 5000000 "students/temp_a.jpg")
              (world_of {["students/a.jpg" := File "hello" 4000000;
                          "students/temp_a.jpg" := File "" 0;
                          "students/temp_b.jpg" := File "" 0]})
              ["a.jpg"] "temp_a.jpg" ["temp_b.jpg"] (File "" 0))
    as (w' & Hrun & Hfs & _).
  - vm_compute. reflexivity.
  - intros n f' Hn Hf' [Hpre _]. apply list_elem_of_singleton in Hn as ->.
    vm_compute in Hpre. discriminate.
  - reflexivity.
  - split; [reflexivity|]. vm_compute. reflexivity.
  - reflexivity.
  - exists w'. split; [exact Hrun|]. rewrite Hfs. reflexivity.
Defined.

(** ** Registration, then login *)




(** ** Sweeping twice *)

Lemma cleanup_loop_removed env names w p :
  fs (for_each names (cleanup_file env) w).2 !! p ≠ fs w !! p →
  ∃ n, n ∈ names ∧ p = "students/" ++ n.
Proof.
  revert w. induction names as [|name names IH]; intros w.
  { simpl. done. }
  destruct (cleanup_file_step env name w) as (r1 & w1 & Hrun1 & Hstep).
  simpl. unfold bind at 1. rewrite Hrun1.
  destruct (decide (p = "students/" ++ name)) as [->|Hp].
  { intros _. exists name. split; [by left|done]. }
  assert (H1 : fs w1 !! p = fs w !! p).
  { destruct Hstep as [->|[_ ->]]; [done|]. by apply lookup_delete_ne. }
  destruct r1 as [[]|e]; wsimpl; [|congruence].
  rewrite <- H1. intros Hdiff. destruct (IH w1 Hdiff) as (n & Hn & ->).
  exists n. split; [by right|done].
Qed.

Lemma cleanup_old_files_removed env w p :
  fs (cleanup_old_files env w).2 !! p ≠ fs w !! p →
  ∃ n, p = "students/" ++ n ∧ has_char "/" n = false.
Proof.
  unfold cleanup_old_files, os_listdir, try_catch, bind at 1 2, emit. wsimpl.
  pose proof (cleanup_loop_removed env (listdir (fs w) STUDENTS_DIR)
                (add_event (EvListdir STUDENTS_DIR) w) p) as Hloop.
  destruct (for_each _ _ _) as [[[]|e] w2]; wsimpl; intros Hdiff;
    destruct (Hloop Hdiff) as (n & Hn & ->);
    apply listdir_spec in Hn as (_ & Hc & _); eauto.
Qed.

(** X23.  Sweeping twice: when no removal is refused, a second sweep
    at the same time finds nothing left to remove. *)
Theorem X23_second_sweep_changes_nothing env w :
  (∀ p, remove_refused env p = false) →
  ∃ w1 w2,
    cleanup_old_files env w = (Ok tt, w1)
    ∧ cleanup_old_files env w1 = (Ok tt, w2)
    ∧ fs w2 = fs w1.
Proof.
  intros Hrem.
  destruct (cleanup_old_files_complete env w Hrem) as (w1 & Hrun1 & Hdone).
  destruct (cleanup_old_files_frame env w) as (w1' & Hrun1' & _ & _ & Hfr1).
  rewrite Hrun1 in Hrun1'. injection Hrun1' as <-.
  destruct (cleanup_old_files_frame env w1) as (w2 & Hrun2 & _ & _ & Hfr2).
  exists w1, w2. split; [done|]. split; [done|].
  apply map_eq. intros p.
  destruct (Hfr2 p) as [|(Hnone & n & f & -> & Hf & Hold)]; [done|].
  exfalso.
  destruct (cleanup_old_files_removed env w1 ("students/" ++ n))
    as (n' & Heq & Hc).
  { rewrite Hrun2. wsimpl. congruence. }
  apply string_app_inv_head in Heq as <-.
  destruct (Hfr1 ("students/" ++ n)) as [Hsame|[Hbad _]]; [|congruence].
  rewrite Hsame in Hf. rewrite (Hdone n f Hc Hf Hold) in Hsame. congruence.
Qed.

Lemma X23_second_sweep_changes_nothing_witness :
  ∃ w1 w2,
    cleanup_old_files (demo_env 5000000)
      (world_of {["students/temp_x.jpg" := File "" 0;
                  "students/a.jpg" := File "hello" 0]}) = (Ok tt, w1)
    ∧ cleanup_old_files (demo_env 5000000) w1 = (Ok tt, w2)
    ∧ fs w2 = fs w1.
Proof.
  apply (X23_second_sweep_changes_nothing (demo_env 5000000)).
  reflexivity.
Defined.
